(** * Lecture Voice-to-Notes Generator (app3.py): session pipeline model

    A shallow embedding of the logic of [app3.py]: the Python string
    helpers the flashcard selection relies on, the effectful helper
    functions ([transcribe_with_whisper], [generate_summary],
    [generate_flashcards], [reset_app]), one pass of the Streamlit script
    over [st.session_state], and the combined-report export.

    The three machine-learning pipelines, the sentence tokenizer, the
    operating system and the clock are external collaborators: they are
    taken as an interface ([Collaborators]) over an abstract hidden state,
    and every theorem quantifies over all their behaviours. *)

From Stdlib Require Import ZArith NArith Lia Ascii String DecimalString.
From stdpp Require Import base option list gmap.

Local Open Scope N_scope.

(** ** Python text *)

(** A Python [str] is a sequence of Unicode code points. *)
Definition pystr := list N.

(** A literal of the source, as code points. *)
Definition py (s : string) : pystr :=
  List.map N_of_ascii (list_ascii_of_string s).
Arguments py : simpl never.

(** [str.isspace] on one code point: CPython's [_PyUnicode_IsWhitespace],
    the predicate both [str.split()] and [str.strip()] use when called
    without arguments. *)
Definition isspace (c : N) : bool :=
  ((0x9 <=? c) && (c <=? 0xD)) || ((0x1C <=? c) && (c <=? 0x20))
  || (c =? 0x85) || (c =? 0xA0) || (c =? 0x1680)
  || ((0x2000 <=? c) && (c <=? 0x200A))
  || (c =? 0x2028) || (c =? 0x2029) || (c =? 0x202F) || (c =? 0x205F)
  || (c =? 0x3000).

(** [s.split()]: maximal runs of non-whitespace, left to right.  [word]
    is the run being scanned, most recent code point first. *)
Fixpoint split_from (word : option pystr) (s : pystr) : list pystr :=
  match s with
  | [] => match word with Some w => [rev w] | None => [] end
  | c :: s' =>
      if isspace c then
        match word with
        | Some w => rev w :: split_from None s'
        | None => split_from None s'
        end
      else split_from (Some (c :: default [] word)) s'
  end.

Definition split (s : pystr) : list pystr := split_from None s.

(** [len(s.split())] *)
Definition word_count (s : pystr) : nat := length (split s).

Fixpoint lstrip (s : pystr) : pystr :=
  match s with
  | [] => []
  | c :: s' => if isspace c then lstrip s' else s
  end.

Definition rstrip (s : pystr) : pystr := rev (lstrip (rev s)).

(** [s.strip()] *)
Definition strip (s : pystr) : pystr := lstrip (rstrip s).

(** [10 < len(s.split()) < 50] *)
Definition qualifies (s : pystr) : bool :=
  (10 <? word_count s)%nat && (word_count s <? 50)%nat.

(** [str(n)] for a non-negative integer. *)
Definition decimal (n : nat) : pystr :=
  py (NilEmpty.string_of_uint (Nat.to_uint n)).

(** [sep.join(parts)] *)
Fixpoint join (sep : pystr) (parts : list pystr) : pystr :=
  match parts with
  | [] => []
  | [p] => p
  | p :: rest => p ++ sep ++ join sep rest
  end.

(** [f"{x}"] for a value that is a [str] or [None]. *)
Definition fmt (x : option pystr) : pystr :=
  match x with Some s => s | None => py "None" end.

(** Truth value of a [str] or [None]: [None] and the empty string are
    false. *)
Definition truthy {A} (x : option (list A)) : bool :=
  match x with Some (_ :: _) => true | _ => false end.

(** [x or d] for a [str]-or-[None] [x]. *)
Definition or_else (x : option pystr) (d : pystr) : pystr :=
  match x with Some (c :: s) => c :: s | _ => d end.

(** ** Session data *)

Definition bytes := list Byte.byte.

(** A flashcard is the dict [{"question": q, "answer": a}]. *)
Record flashcard := Flashcard { question : pystr; answer : pystr }.

(** The five keys the application keeps in [st.session_state]. *)
Inductive key :=
  K_audio_data | K_file_name | K_transcription | K_summary | K_flashcards.

(** [st.session_state], restricted to the application's own keys.  For
    each key the outer [option] says whether the key is in the dict, the
    inner one whether its value is [None]. *)
Record SessionState := Session {
  audio_data : option (option bytes);
  file_name : option (option pystr);
  transcription : option (option pystr);
  summary : option (option pystr);
  flashcards : option (option (list flashcard))
}.

(** What a session field holds, [None] also when its key is missing. *)
Definition value {A} (x : option (option A)) : option A := default None x.

(** The state of a session the script has not run in yet. *)
Definition fresh_session : SessionState := Session None None None None None.

(** [key in st.session_state] *)
Definition has_key (k : key) (s : SessionState) : bool :=
  match k with
  | K_audio_data => bool_decide (is_Some (audio_data s))
  | K_file_name => bool_decide (is_Some (file_name s))
  | K_transcription => bool_decide (is_Some (transcription s))
  | K_summary => bool_decide (is_Some (summary s))
  | K_flashcards => bool_decide (is_Some (flashcards s))
  end.

(** [del st.session_state[key]] (for a key that is present) *)
Definition del_key (k : key) (s : SessionState) : SessionState :=
  match k with
  | K_audio_data =>
      Session None (file_name s) (transcription s) (summary s) (flashcards s)
  | K_file_name =>
      Session (audio_data s) None (transcription s) (summary s) (flashcards s)
  | K_transcription =>
      Session (audio_data s) (file_name s) None (summary s) (flashcards s)
  | K_summary =>
      Session (audio_data s) (file_name s) (transcription s) None (flashcards s)
  | K_flashcards =>
      Session (audio_data s) (file_name s) (transcription s) (summary s) None
  end.

(** [st.session_state[key] = None] *)
Definition set_none (k : key) (s : SessionState) : SessionState :=
  match k with
  | K_audio_data =>
      Session (Some None) (file_name s) (transcription s) (summary s)
        (flashcards s)
  | K_file_name =>
      Session (audio_data s) (Some None) (transcription s) (summary s)
        (flashcards s)
  | K_transcription =>
      Session (audio_data s) (file_name s) (Some None) (summary s)
        (flashcards s)
  | K_summary =>
      Session (audio_data s) (file_name s) (transcription s) (Some None)
        (flashcards s)
  | K_flashcards =>
      Session (audio_data s) (file_name s) (transcription s) (summary s)
        (Some None)
  end.

Definition set_audio_data (v : option bytes) (s : SessionState) :=
  Session (Some v) (file_name s) (transcription s) (summary s) (flashcards s).
Definition set_file_name (v : option pystr) (s : SessionState) :=
  Session (audio_data s) (Some v) (transcription s) (summary s) (flashcards s).
Definition set_transcription (v : option pystr) (s : SessionState) :=
  Session (audio_data s) (file_name s) (Some v) (summary s) (flashcards s).
Definition set_summary (v : option pystr) (s : SessionState) :=
  Session (audio_data s) (file_name s) (transcription s) (Some v) (flashcards s).
Definition set_flashcards (v : option (list flashcard)) (s : SessionState) :=
  Session (audio_data s) (file_name s) (transcription s) (summary s) (Some v).

Definition session_keys : list key :=
  [K_audio_data; K_file_name; K_transcription; K_summary; K_flashcards].

(** The loop at the top of the script:
    [for key in [...]: if key not in st.session_state:
       st.session_state[key] = None] *)
Definition init_session (s : SessionState) : SessionState :=
  fold_left (λ s k, if has_key k s then s else set_none k s) session_keys s.

(** [reset_app]: [for key in keys_to_clear: if key in st.session_state:
    del st.session_state[key]] *)
Definition reset_app (s : SessionState) : SessionState :=
  let keys_to_clear := session_keys in
  fold_left (λ s k, if has_key k s then del_key k s else s) keys_to_clear s.

(** Every key present. *)
Definition initialized (s : SessionState) : Prop :=
  Forall (λ k, has_key k s = true) session_keys.

(** ** Collaborators and the world *)

(** What a collaborator call gives back: a value, or an [Exception] with
    its message. *)
Inductive reply (A : Type) := Ok (a : A) | Fail (msg : pystr).
Arguments Ok {A} a.
Arguments Fail {A} msg.

Record datetime := Datetime {
  year : N; month : N; day : N; hour : N; minute : N; second : N
}.

(** The code outside the repository, over its hidden state [Env] (model
    weights and sampling state, operating system, clock).
    - [load_models_fails] is [load_models()] raising instead of giving
      the two cached pipelines, with the error it raises;
    - [sent_tokenize] is what [nltk.sent_tokenize] returns, a function of
      the text, and [sent_tokenize_fails] is it raising instead (its data
      files are missing, say);
    - [whisper_transcribe path files] is
      [load_whisper().transcribe(path, fp16=False)["text"]], the three
      steps the source has inside one [try];
    - [summarizer text max_length min_length] is
      [summarizer(text, ..., do_sample=False)[0]['summary_text']];
    - [qg_pipe s max_length] is
      [qg_pipe(s, max_length=.., do_sample=True)[0]['generated_text']];
    - [temp_name suffix] is the name [tempfile.NamedTemporaryFile] picks
      (creating the file and writing the audio to it is taken to work);
    - [remove_refused path] is the operating system refusing to remove an
      existing file, with the error it reports;
    - [datetime_now] is [datetime.now()], [strftime] its method;
    - [json_dumps] is [json.dumps(cards, indent=2)]. *)
Record Collaborators (Env : Type) := {
  load_models_fails : Env → option pystr * Env;
  sent_tokenize : pystr → list pystr;
  sent_tokenize_fails : pystr → Env → option pystr * Env;
  whisper_transcribe : pystr → gmap pystr bytes → Env → reply pystr * Env;
  summarizer : pystr → N → N → Env → reply pystr * Env;
  qg_pipe : pystr → N → Env → reply pystr * Env;
  temp_name : pystr → Env → pystr * Env;
  remove_refused : pystr → Env → option pystr * Env;
  datetime_now : Env → datetime * Env;
  strftime : datetime → pystr → pystr;
  json_dumps : list flashcard → pystr
}.
Arguments load_models_fails {Env} _ _.
Arguments sent_tokenize {Env} _ _.
Arguments sent_tokenize_fails {Env} _ _ _.
Arguments whisper_transcribe {Env} _ _ _ _.
Arguments summarizer {Env} _ _ _ _ _.
Arguments qg_pipe {Env} _ _ _ _.
Arguments temp_name {Env} _ _ _.
Arguments remove_refused {Env} _ _ _.
Arguments datetime_now {Env} _ _.
Arguments strftime {Env} _ _ _.
Arguments json_dumps {Env} _ _.

(** What a run does that can be observed from outside: the collaborator
    calls with their replies, the error messages shown ([st.error]) and the
    downloads offered ([st.download_button]), of text and of the audio. *)
Inductive Event :=
  | CallTranscribe (path : pystr) (r : reply pystr)
  | CallSummarize (text : pystr) (r : reply pystr)
  | CallQG (sentence : pystr) (r : reply pystr)
  | CallRemove (path : pystr) (refusal : option pystr)
  | ShowError (msg : pystr)
  | OfferDownload (label data name : pystr)
  | OfferAudio (label : pystr) (data : bytes) (name : option pystr).

Record World (Env : Type) := MkWorld {
  env : Env;
  state : SessionState;
  files : gmap pystr bytes;
  trace : list Event
}.
Arguments MkWorld {Env} _ _ _ _.
Arguments env {Env} _.
Arguments state {Env} _.
Arguments files {Env} _.
Arguments trace {Env} _.

(** ** Exceptions and the script monad *)

(** [PyException] stands for the instances of [Exception];
    [RerunException] is what [st.rerun()] raises, which is not one. *)
Inductive exn := PyException (msg : pystr) | RerunException.

Inductive outcome (A : Type) := Ret (a : A) | Raise (e : exn).
Arguments Ret {A} a.
Arguments Raise {A} e.

Definition M (Env A : Type) : Type := World Env → outcome A * World Env.

Section Script.
Context {Env : Type} (C : Collaborators Env).

Definition ret {A} (a : A) : M Env A := λ w, (Ret a, w).

Definition raise {A} (e : exn) : M Env A := λ w, (Raise e, w).

Definition bind {A B} (m : M Env A) (k : A → M Env B) : M Env B :=
  λ w, match m w with
       | (Ret a, w') => k a w'
       | (Raise e, w') => (Raise e, w')
       end.

Notation "x <- m ;; k" := (bind m (λ x, k))
  (at level 100, m at next level, right associativity).
Notation "m ;; k" := (bind m (λ _, k))
  (at level 100, right associativity).

(** [try: m  except Exception as e: handler(str(e))] *)
Definition try_except {A} (m : M Env A) (handler : pystr → M Env A)
  : M Env A :=
  λ w, match m w with
       | (Raise (PyException msg), w') => handler msg w'
       | r => r
       end.

(** [try: m  except: handler] *)
Definition try_except_all {A} (m : M Env A) (handler : M Env A) : M Env A :=
  λ w, match m w with
       | (Raise _, w') => handler w'
       | r => r
       end.

(** [try: m  finally: cleanup]: the cleanup runs however [m] ends, and
    [m]'s result or exception stands unless the cleanup raises. *)
Definition try_finally {A} (m : M Env A) (cleanup : M Env unit) : M Env A :=
  λ w, match m w with
       | (r, w') =>
           match cleanup w' with
           | (Ret _, w'') => (r, w'')
           | (Raise e, w'') => (Raise e, w'')
           end
       end.

Definition when (b : bool) (m : M Env unit) : M Env unit :=
  if b then m else ret ().

(** *** Primitive effects *)

Definition log (ev : Event) (w : World Env) : World Env :=
  MkWorld (env w) (state w) (files w) (trace w ++ [ev]).

Definition with_env (e : Env) (w : World Env) : World Env :=
  MkWorld e (state w) (files w) (trace w).

Definition with_state (s : SessionState) (w : World Env) : World Env :=
  MkWorld (env w) s (files w) (trace w).

Definition with_files (f : gmap pystr bytes) (w : World Env) : World Env :=
  MkWorld (env w) (state w) f (trace w).

(** A collaborator call: the reply is logged, a failure is raised. *)
Definition call (ask : gmap pystr bytes → Env → reply pystr * Env)
    (ev : reply pystr → Event) : M Env pystr :=
  λ w, let '(r, e) := ask (files w) (env w) in
       let w' := log (ev r) (with_env e w) in
       match r with
       | Ok a => (Ret a, w')
       | Fail msg => (Raise (PyException msg), w')
       end.

(** [st.error(msg)] *)
Definition st_error (msg : pystr) : M Env unit :=
  λ w, (Ret (), log (ShowError msg) w).

(** [st.download_button(label, data, name)] *)
Definition st_download_button (label data name : pystr) : M Env unit :=
  λ w, (Ret (), log (OfferDownload label data name) w).

(** [st.download_button(label, data, name, mime="audio/webm")] with the
    audio bytes as data. *)
Definition st_download_audio (label : pystr) (data : bytes)
    (name : option pystr) : M Env unit :=
  λ w, (Ret (), log (OfferAudio label data name) w).

(** An outside step that either works or raises. *)
Definition attempt (fails : Env → option pystr * Env) : M Env unit :=
  λ w, let '(failure, e) := fails (env w) in
       match failure with
       | Some msg => (Raise (PyException msg), with_env e w)
       | None => (Ret (), with_env e w)
       end.

(** [load_models()]; its two pipelines are [summarizer] and [qg_pipe]. *)
Definition load_models : M Env unit := attempt (load_models_fails C).

(** [nltk.sent_tokenize(text)] *)
Definition nltk_sent_tokenize (text : pystr) : M Env (list pystr) :=
  bind (attempt (sent_tokenize_fails C text))
    (λ _, ret (sent_tokenize C text)).

(** [st.rerun()] *)
Definition st_rerun : M Env unit := raise RerunException.

(** [datetime.now().strftime(format)] *)
Definition now_strftime (format : pystr) : M Env pystr :=
  λ w, let '(d, e) := datetime_now C (env w) in
       (Ret (strftime C d format), with_env e w).

(** [st.session_state.<key>]: an [AttributeError] if the key is not in
    the dict. *)
Definition attr {A} (field : SessionState → option A) : M Env A :=
  λ w, match field (state w) with
       | Some v => (Ret v, w)
       | None => (Raise (PyException (py "AttributeError")), w)
       end.

(** [st.session_state.<key> = v] *)
Definition assign (set : SessionState → SessionState) : M Env unit :=
  λ w, (Ret (), with_state (set (state w)) w).

(** [with tempfile.NamedTemporaryFile(suffix=.., delete=False) as f:
      f.write(data); temp_path = f.name] *)
Definition named_temporary_file (suffix : pystr) (data : bytes)
  : M Env pystr :=
  λ w, let '(path, e) := temp_name C suffix (env w) in
       (Ret path, with_files (<[path := data]> (files w)) (with_env e w)).

(** [os.remove(path)] *)
Definition os_remove (path : pystr) : M Env unit :=
  λ w, match files w !! path with
       | None =>
           let msg := py "FileNotFoundError" in
           (Raise (PyException msg), log (CallRemove path (Some msg)) w)
       | Some _ =>
           let '(refusal, e) := remove_refused C path (env w) in
           let w' := log (CallRemove path refusal) (with_env e w) in
           match refusal with
           | Some msg => (Raise (PyException msg), w')
           | None => (Ret (), with_files (delete path (files w')) w')
           end
       end.

(** *** The functions of the script *)

Definition transcribe_with_whisper (audio_bytes : bytes)
  : M Env (option pystr) :=
  temp_path <- named_temporary_file (py ".webm") audio_bytes ;;
  try_finally
    (try_except
       (text <- call (whisper_transcribe C temp_path)
                  (CallTranscribe temp_path) ;;
        ret (Some text))
       (λ e, st_error (py "Transcription failed: " ++ e) ;; ret None))
    (try_except_all (os_remove temp_path) (ret ())).

Definition generate_summary (text : pystr) : M Env (option pystr) :=
  load_models ;;
  try_except
    (s <- call (λ _, summarizer C text 150 40) (CallSummarize text) ;;
     ret (Some s))
    (λ e, st_error (py "Summary failed: " ++ e) ;; ret None).

(** [[s for s in sentences if 10 < len(s.split()) < 50]], for the
    sentences the tokenizer returns. *)
Definition good_sentences (text : pystr) : list pystr :=
  List.filter qualifies (sent_tokenize C text).

(** The body of the [for] loop of [generate_flashcards], for one
    sentence [s], with the list built so far. *)
Definition flashcard_for (s : pystr) (flashcards : list flashcard)
  : M Env (list flashcard) :=
  try_except_all
    (q <- call (λ _, qg_pipe C s 64) (CallQG s) ;;
     ret (flashcards ++ [Flashcard (strip q) (strip s)]))
    (ret flashcards).

Fixpoint for_each (sentences : list pystr) (flashcards : list flashcard)
  : M Env (list flashcard) :=
  match sentences with
  | [] => ret flashcards
  | s :: rest =>
      flashcards' <- flashcard_for s flashcards ;;
      for_each rest flashcards'
  end.

Definition generate_flashcards (text : pystr) : M Env (list flashcard) :=
  load_models ;;
  sentences <- nltk_sent_tokenize text ;;
  let good_sentences := List.filter qualifies sentences in
  for_each (take 10 good_sentences) [].

(** *** The combined report *)

(** The triple-quoted f-string of the export, with [generated] the
    formatted time of its third line. *)
Definition report_head (file_name : option pystr) (generated : pystr)
    (transcription summary : option pystr) : pystr :=
  py "LECTURE ANALYSIS REPORT" ++ [10]
  ++ py "File: " ++ fmt file_name ++ [10]
  ++ py "Generated: " ++ generated ++ [10]
  ++ [10]
  ++ py "=== TRANSCRIPTION ===" ++ [10]
  ++ fmt transcription ++ [10]
  ++ [10]
  ++ py "=== SUMMARY ===" ++ [10]
  ++ or_else summary (py "No summary") ++ [10]
  ++ [10]
  ++ py "=== FLASHCARDS ===" ++ [10].

(** [f"\nCard {i+1}\nQ: {card['question']}\nA: {card['answer']}\n"] *)
Definition report_card (i : nat) (card : flashcard) : pystr :=
  [10] ++ py "Card " ++ decimal (i + 1) ++ [10]
  ++ py "Q: " ++ question card ++ [10]
  ++ py "A: " ++ answer card ++ [10].

(** [for i, card in enumerate(cards): full_report += ...], entered with
    the index [i] of the first of [cards]. *)
Fixpoint report_cards (i : nat) (cards : list flashcard)
    (full_report : pystr) : pystr :=
  match cards with
  | [] => full_report
  | card :: rest =>
      report_cards (S i) rest (full_report ++ report_card i card)
  end.

(** The body of [if st.button("Export All"):]; the value is the report
    text handed to the download button. *)
Definition export_all : M Env pystr :=
  timestamp <- now_strftime (py "%Y%m%d_%H%M%S") ;;
  file_name <- attr file_name ;;
  generated <- now_strftime (py "%Y-%m-%d %H:%M:%S") ;;
  transcription <- attr transcription ;;
  summary <- attr summary ;;
  let full_report := report_head file_name generated transcription summary in
  flashcards <- attr flashcards ;;
  let full_report := report_cards 0 (default [] flashcards) full_report in
  st_download_button (0x1F4E5 :: py " Download Report") full_report
    (py "lecture_analysis_" ++ timestamp ++ py ".txt") ;;
  ret full_report.

(** *** One pass of the script *)

(** What the widgets report in a pass: the recorder's [audio['bytes']]
    (or no [audio]), the uploaded file with its name, and whether
    [Export All] was pressed. *)
Record Widgets := {
  recorder : option bytes;
  uploader : option (pystr * bytes);
  export_pressed : bool
}.

(** The branch [if st.session_state.audio_data is None:]. *)
Definition input_view (ui : Widgets) : M Env unit :=
  when (truthy (recorder ui))
    (stamp <- now_strftime (py "%Y%m%d_%H%M%S") ;;
     assign (set_file_name
               (Some (py "recording_" ++ stamp ++ py ".webm"))) ;;
     assign (set_audio_data (recorder ui)) ;;
     st_rerun) ;;
  match uploader ui with
  | Some (name, data) =>
      assign (set_file_name (Some name)) ;;
      assign (set_audio_data (Some data)) ;;
      st_rerun
  | None => ret ()
  end.

(** The branch [if st.session_state.transcription is None:]. *)
Definition processing (audio : bytes) : M Env unit :=
  transcription <- transcribe_with_whisper audio ;;
  assign (set_transcription transcription) ;;
  when (truthy transcription)
    (s <- generate_summary (default [] transcription) ;;
     assign (set_summary s) ;;
     f <- generate_flashcards (default [] transcription) ;;
     assign (set_flashcards (Some f)) ;;
     st_rerun).

(** [f"Q: {c['question']}\nA: {c['answer']}"] *)
Definition card_text (c : flashcard) : pystr :=
  py "Q: " ++ question c ++ [10] ++ py "A: " ++ answer c.

(** The results branch. *)
Definition results_view (ui : Widgets) (transcription : pystr)
  : M Env unit :=
  stamp <- now_strftime (py "%Y%m%d_%H%M%S") ;;
  st_download_button (0x1F4C4 :: py " Download Transcription")
    transcription (py "transcription_" ++ stamp ++ py ".txt") ;;
  summary <- attr summary ;;
  when (truthy summary)
    (stamp <- now_strftime (py "%Y%m%d_%H%M%S") ;;
     st_download_button (0x1F4C4 :: py " Download Summary")
       (default [] summary) (py "summary_" ++ stamp ++ py ".txt")) ;;
  flashcards <- attr flashcards ;;
  when (truthy flashcards)
    (let cards := default [] flashcards in
     let flashcard_text := join [10; 10] (List.map card_text cards) in
     let flashcard_json := json_dumps C cards in
     stamp <- now_strftime (py "%Y%m%d_%H%M%S") ;;
     st_download_button (0x1F4C4 :: py " Flashcards (TXT)")
       flashcard_text (py "flashcards_" ++ stamp ++ py ".txt") ;;
     stamp <- now_strftime (py "%Y%m%d_%H%M%S") ;;
     st_download_button (0x1F4DA :: py " Flashcards (JSON)")
       flashcard_json (py "flashcards_" ++ stamp ++ py ".json")) ;;
  when (export_pressed ui) (export_all ;; ret ()).

(** The script, top to bottom.  Left out, because they only draw on the
    page: the page configuration and style sheet, every [st.markdown],
    the columns, the audio player [st.audio], the spinner, the
    expanders, [st.success] and [st.balloons].  The [Start Over] button
    is the interaction [StartOver] below; every [st.download_button] is
    an event of the trace. *)
Definition script (ui : Widgets) : M Env unit :=
  assign init_session ;;
  audio <- attr audio_data ;;
  match audio with
  | None => input_view ui
  | Some audio =>
      name <- attr file_name ;;
      st_download_audio (0x1F4BE :: py " Download Audio") audio name ;;
      transcription <- attr transcription ;;
      match transcription with
      | None => processing audio
      | Some text => results_view ui text
      end
  end.

(** What the user does: anything that makes Streamlit run the script
    again, or the [Start Over] button, whose [on_click] callback
    [reset_app] runs before the script does.  A pass that ends in
    [st.rerun()] or in an error leaves the state it reached. *)
Inductive Interaction := Rerun (ui : Widgets) | StartOver (ui : Widgets).

Definition step (i : Interaction) (w : World Env) : World Env :=
  match i with
  | Rerun ui => (script ui w).2
  | StartOver ui => (script ui (with_state (reset_app (state w)) w)).2
  end.

Definition steps (l : list Interaction) (w : World Env) : World Env :=
  fold_left (λ w i, step i w) l w.

Definition is_rerun (i : Interaction) : bool :=
  match i with Rerun _ => true | StartOver _ => false end.

(** *** Reading a run *)

(** The question-generation calls made for [sentences] in turn, from the
    hidden state [e]: each sentence with the reply it gets. *)
Fixpoint qg_run (sentences : list pystr) (e : Env) : list Event * Env :=
  match sentences with
  | [] => ([], e)
  | s :: rest =>
      let '(r, e1) := qg_pipe C s 64 e in
      let '(evs, e2) := qg_run rest e1 in
      (CallQG s r :: evs, e2)
  end.

(** For a session that holds [audio], the world in which the script
    reaches the test of the transcript: the session initialised and the
    audio download offered. *)
Definition with_audio_offered (audio : bytes) (w : World Env) : World Env :=
  log (OfferAudio (0x1F4BE :: py " Download Audio") audio
         (value (file_name (state w))))
    (with_state (init_session (state w)) w).

(** What comes before the loop of [generate_flashcards], from the hidden
    state [e]: loading the models, then tokenizing; the error of the
    first of the two that raises, if one does. *)
Definition flashcards_setup (text : pystr) (e : Env) : option pystr * Env :=
  let '(failure, e1) := load_models_fails C e in
  match failure with
  | Some msg => (Some msg, e1)
  | None => sent_tokenize_fails C text e1
  end.

(** Loading the models and tokenizing never raise. *)
Definition dependable : Prop :=
  (∀ e, (load_models_fails C e).1 = None)
  ∧ (∀ text e, (sent_tokenize_fails C text e).1 = None).

(** The time the report's [Generated:] line shows when the export runs
    from the hidden state [e]: the second reading of the clock. *)
Definition export_generated (e : Env) : pystr :=
  let '(_, e1) := datetime_now C e in
  let '(d, _) := datetime_now C e1 in
  strftime C d (py "%Y-%m-%d %H:%M:%S").

(** The report as a function of the session and that time. *)
Definition report_text (s : SessionState) (generated : pystr) : pystr :=
  report_cards 0 (default [] (default None (flashcards s)))
    (report_head (default None (file_name s)) generated
       (default None (transcription s)) (default None (summary s))).
End Script.

(** The flashcard a question-generation call leaves behind. *)
Definition card_of_event (ev : Event) : option flashcard :=
  match ev with
  | CallQG s (Ok q) => Some (Flashcard (strip q) (strip s))
  | _ => None
  end.

(** [ev] is the question-generation call for sentence [s]. *)
Definition asks (ev : Event) (s : pystr) : Prop := ∃ r, ev = CallQG s r.

Definition is_generation (ev : Event) : bool :=
  match ev with CallSummarize _ _ | CallQG _ _ => true | _ => false end.

Definition is_failed_question (ev : Event) : bool :=
  match ev with CallQG _ (Fail _) => true | _ => false end.

Definition is_transcribe (ev : Event) : bool :=
  match ev with CallTranscribe _ _ => true | _ => false end.

Definition is_download (ev : Event) : bool :=
  match ev with
  | OfferDownload _ _ _ | OfferAudio _ _ _ => true
  | _ => false
  end.

(** What a download holds: text, or the audio. *)
Inductive payload := Text (s : pystr) | Audio (b : bytes).

(** The label and the data of a download that is offered. *)
Definition offered (ev : Event) : option (pystr * payload) :=
  match ev with
  | OfferDownload label data _ => Some (label, Text data)
  | OfferAudio label data _ => Some (label, Audio data)
  | _ => None
  end.

(** The events of a run that took the world from [w] to [w']. *)
Definition new_events {Env} (w w' : World Env) : list Event :=
  drop (length (trace w)) (trace w').

(** A run that leaves the session as it is and only offers downloads. *)
Definition quiet {Env} (w w' : World Env) : Prop :=
  state w' = state w
  ∧ ∃ evs, trace w' = trace w ++ evs ∧ Forall (λ ev, is_download ev = true) evs.

(** A run that leaves the transcript as it is and only offers downloads. *)
Definition keeps_transcript {Env} (w w' : World Env) : Prop :=
  transcription (state w') = transcription (state w)
  ∧ ∃ evs, trace w' = trace w ++ evs ∧ Forall (λ ev, is_download ev = true) evs.

(** Every run of [m] is within [R]. *)
Definition preserved {Env A} (R : relation (World Env)) (m : M Env A) : Prop :=
  ∀ w, R w (m w).2.

(** A session field that holds nothing: its key is missing or [None]. *)
Definition unset {A} (x : option (option A)) : Prop :=
  x = None ∨ x = Some None.

(** What the initialisation loop makes of a field. *)
Definition init_field {A} (x : option (option A)) : option (option A) :=
  Some (default None x).

Definition reply_value (r : reply pystr) : option pystr :=
  match r with Ok a => Some a | Fail _ => None end.

(** The error an [except Exception] handler shows for a failed call. *)
Definition shown_error (prefix : pystr) (r : reply pystr) : list Event :=
  match r with Ok _ => [] | Fail msg => [ShowError (prefix ++ msg)] end.

(** [l] occurs in [s] as a contiguous piece. *)
Definition occurs_in (l s : pystr) : Prop := ∃ before after, s = before ++ l ++ after.

(** [s] neither starts nor ends with whitespace. *)
Definition trimmed (s : pystr) : Prop :=
  (∀ c, head s = Some c → isspace c = false)
  ∧ (∀ c, last s = Some c → isspace c = false).

(** A run that did not end in an error: it returned or asked for a
    rerun. *)
Definition no_error {A} (o : outcome A) : Prop :=
  match o with Raise (PyException _) => False | _ => True end.

(** From a session in state [s0], [m] ends without error and leaves the
    session in state [s0]. *)
Definition steady {Env A} (s0 : SessionState) (m : M Env A) : Prop :=
  ∀ w, state w = s0 → no_error (m w).1 ∧ state (m w).2 = s0.

(** What a pass of the script can do to an initialised session: nothing;
    take audio in, with its name; store a transcript that is [None] or
    empty; or store a non-empty transcript with its summary and
    flashcards. *)
Inductive pass_effect (s0 : SessionState) : SessionState → Prop :=
  | pass_nothing : pass_effect s0 s0
  | pass_acquire (name : pystr) (data : bytes) :
      value (audio_data s0) = None →
      pass_effect s0
        (set_audio_data (Some data) (set_file_name (Some name) s0))
  | pass_no_transcript (audio : bytes) (t : option pystr) :
      audio_data s0 = Some (Some audio) →
      transcription s0 = Some None →
      truthy t = false →
      pass_effect s0 (set_transcription t s0)
  | pass_processed (audio : bytes) (text : pystr) (s : option pystr)
      (cards : list flashcard) :
      audio_data s0 = Some (Some audio) →
      transcription s0 = Some None →
      text ≠ [] →
      pass_effect s0
        (set_flashcards (Some cards)
           (set_summary s (set_transcription (Some text) s0))).

(** What a pass can do to an initialised session when loading the models
    or tokenizing may raise as well: besides the four ways of
    [pass_effect], it can stop after storing the transcript, or after
    storing the transcript and the summary. *)
Inductive pass_change (s0 : SessionState) : SessionState → Prop :=
  | change_nothing : pass_change s0 s0
  | change_acquire (name : pystr) (data : bytes) :
      value (audio_data s0) = None →
      pass_change s0
        (set_audio_data (Some data) (set_file_name (Some name) s0))
  | change_transcript (audio : bytes) (t : option pystr) :
      audio_data s0 = Some (Some audio) →
      transcription s0 = Some None →
      pass_change s0 (set_transcription t s0)
  | change_summary (audio : bytes) (text : pystr) (s : option pystr) :
      audio_data s0 = Some (Some audio) →
      transcription s0 = Some None →
      text ≠ [] →
      pass_change s0 (set_summary s (set_transcription (Some text) s0))
  | change_processed (audio : bytes) (text : pystr) (s : option pystr)
      (cards : list flashcard) :
      audio_data s0 = Some (Some audio) →
      transcription s0 = Some None →
      text ≠ [] →
      pass_change s0
        (set_flashcards (Some cards)
           (set_summary s (set_transcription (Some text) s0))).

(** The fields of a session fit together: audio and file name come and
    go together, there is no transcript without audio, and flashcards or
    a summary are there only with a non-empty transcript. *)
Definition coherent (s : SessionState) : Prop :=
  (value (audio_data s) = None ↔ value (file_name s) = None)
  ∧ (value (audio_data s) = None → value (transcription s) = None)
  ∧ (value (flashcards s) ≠ None → truthy (value (transcription s)) = true)
  ∧ (value (summary s) ≠ None → truthy (value (transcription s)) = true).

(** A non-empty transcript has its flashcards. *)
Definition flashcards_made (s : SessionState) : Prop :=
  truthy (value (transcription s)) = true → value (flashcards s) ≠ None.

(** ** A small concrete environment

    Deterministic stand-ins for the collaborators, used to run the script
    on concrete inputs.  The hidden state counts the question-generation
    calls made so far. *)
Module Toy.
(** One sentence per line. *)
Fixpoint lines_from (cur : pystr) (s : pystr) : list pystr :=
  match s with
  | [] => match cur with [] => [] | _ => [rev cur] end
  | c :: s' =>
      if (c =? 10)%N then rev cur :: lines_from [] s'
      else lines_from (c :: cur) s'
  end.

Definition tokenize (text : pystr) : list pystr := lines_from [] text.

Definition text_of (data : bytes) : pystr := List.map Byte.to_N data.

Definition audio_of (s : string) : bytes := list_byte_of_string s.

(** The audio holds its own transcript; a first byte of zero does not
    decode. *)
Definition whisper (path : pystr) (fs : gmap pystr bytes) (n : nat)
  : reply pystr * nat :=
  match fs !! path with
  | None => (Fail (py "no such file"), n)
  | Some (Byte.x00 :: _) => (Fail (py "cannot decode audio"), n)
  | Some data => (Ok (text_of data), n)
  end.

Definition summarize (text : pystr) (max_length min_length : N) (n : nat)
  : reply pystr * nat :=
  if (N.of_nat (length text) <? min_length)%N
  then (Fail (py "input too short"), n)
  else (Ok (take (N.to_nat max_length) text), n).

(** The third call fails. *)
Definition ask (s : pystr) (max_length : N) (n : nat) : reply pystr * nat :=
  if (n =? 2)%nat then (Fail (py "generation failed"), S n)
  else (Ok (py " What does this say: " ++ take 20 s ++ py "? "), S n).

Definition two_digits (n : N) : pystr :=
  [48 + (n / 10) mod 10; 48 + n mod 10]%N.

Fixpoint format_time (d : datetime) (format : pystr) : pystr :=
  match format with
  | 37 :: c :: rest =>
      (if (c =? 89)%N then two_digits (year d / 100) ++ two_digits (year d)
       else if (c =? 109)%N then two_digits (month d)
       else if (c =? 100)%N then two_digits (day d)
       else if (c =? 72)%N then two_digits (hour d)
       else if (c =? 77)%N then two_digits (minute d)
       else if (c =? 83)%N then two_digits (second d)
       else [37; c]) ++ format_time d rest
  | c :: rest => c :: format_time d rest
  | [] => []
  end%N.

Definition dumps (cards : list flashcard) : pystr :=
  py "[" ++ join (py ", ")
    (List.map (λ c, py "{" ++ question c ++ py ": " ++ answer c ++ py "}")
       cards) ++ py "]".

Definition collab : Collaborators nat := {|
  load_models_fails := λ n, (None, n);
  sent_tokenize := tokenize;
  sent_tokenize_fails := λ _ n, (None, n);
  whisper_transcribe := whisper;
  summarizer := summarize;
  qg_pipe := ask;
  temp_name := λ suffix n, (py "/tmp/tmpaudio" ++ suffix, n);
  remove_refused := λ _ n, (None, n);
  datetime_now := λ n, (Datetime 2026 11 3 18 54 7, n);
  strftime := format_time;
  json_dumps := dumps
|}.

(** A new session, before the script has run in it. *)
Definition start : World nat := MkWorld 0%nat fresh_session ∅ [].

Definition no_input : Widgets := Build_Widgets None None false.

Definition upload (name : string) (audio : bytes) : Widgets :=
  Build_Widgets None (Some (py name, audio)) false.

Definition press_export : Widgets := Build_Widgets None None true.

Definition short : pystr := py "This is a short test.".

(** Five sentences of eleven words and one of two. *)
Definition lecture : string :=
  "one two three four five six seven eight nine ten eleven
a1 two three four five six seven eight nine ten eleven
a2 two three four five six seven eight nine ten eleven
a3 two three four five six seven eight nine ten eleven
a4 two three four five six seven eight nine ten eleven
short one
".

(** The session after a recording of [said] was uploaded and processed. *)
Definition processed (said : string) : World nat :=
  steps collab [Rerun (upload "a.wav" (audio_of said)); Rerun no_input] start.

(** The session after [audio] was uploaded, before it is processed. *)
Definition acquired (audio : bytes) : World nat :=
  step collab (Rerun (upload "a.wav" audio)) start.

(** Audio that does not decode. *)
Definition garbled : bytes := [Byte.x00; Byte.x2a].

(** Eleven words in fewer than forty characters. *)
Definition terse : string := "a b c d e f g h i j k".

(** The same, with models that cannot be loaded. *)
Definition offline : Collaborators nat := {|
  load_models_fails := λ n, (Some (py "cannot load model"), n);
  sent_tokenize := tokenize;
  sent_tokenize_fails := λ _ n, (None, n);
  whisper_transcribe := whisper;
  summarizer := summarize;
  qg_pipe := ask;
  temp_name := λ suffix n, (py "/tmp/tmpaudio" ++ suffix, n);
  remove_refused := λ _ n, (None, n);
  datetime_now := λ n, (Datetime 2026 11 3 18 54 7, n);
  strftime := format_time;
  json_dumps := dumps
|}.

(** The same, with an operating system that refuses to remove files. *)
Definition locked : Collaborators nat := {|
  load_models_fails := λ n, (None, n);
  sent_tokenize := tokenize;
  sent_tokenize_fails := λ _ n, (None, n);
  whisper_transcribe := whisper;
  summarizer := summarize;
  qg_pipe := ask;
  temp_name := λ suffix n, (py "/tmp/tmpaudio" ++ suffix, n);
  remove_refused := λ _ n, (Some (py "PermissionError"), n);
  datetime_now := λ n, (Datetime 2026 11 3 18 54 7, n);
  strftime := format_time;
  json_dumps := dumps
|}.

(** A recording from the microphone, with a file chosen as well. *)
Definition record_and_upload (recording upload : bytes) : Widgets :=
  Build_Widgets (Some recording) (Some (py "b.mp3", upload)) false.

(** Eleven sentences of eleven words. *)
Definition eleven : pystr :=
  concat (replicate 11 (py "w1 w2 w3 w4 w5 w6 w7 w8 w9 w10 w11" ++ [10%N])).
End Toy.
(** ** Stripping does not change the words *)

Lemma split_lstrip (s : pystr) : split (lstrip s) = split s.
Proof.
  unfold split. induction s as [|c s IH]; simpl; [done|].
  destruct (isspace c) eqn:Hc; [done|]. simpl. by rewrite Hc.
Qed.

Lemma lstrip_decompose (s : pystr) :
  ∃ ws, s = ws ++ lstrip s ∧ forallb isspace ws = true.
Proof.
  induction s as [|c s [ws [Hs Hws]]]; simpl.
  - by exists [].
  - destruct (isspace c) eqn:Hc.
    + exists (c :: ws). simpl. rewrite Hc, Hws. split; [congruence|done].
    + by exists [].
Qed.

Lemma split_from_spaces (ws : pystr) (word : option pystr) :
  forallb isspace ws = true → split_from word ws = split_from word [].
Proof.
  revert word. induction ws as [|c ws IH]; intros word Hws; simpl; [done|].
  simpl in Hws. apply andb_true_iff in Hws as [Hc Hws]. rewrite Hc.
  destruct word; rewrite (IH None Hws); done.
Qed.

Lemma split_from_trailing (ws : pystr) :
  forallb isspace ws = true →
  ∀ s word, split_from word (s ++ ws) = split_from word s.
Proof.
  intros Hws. induction s as [|c s IH]; intros word.
  - by apply split_from_spaces.
  - simpl. destruct (isspace c); [destruct word|]; by rewrite IH.
Qed.

Lemma split_rstrip (s : pystr) : split (rstrip s) = split s.
Proof.
  unfold rstrip. destruct (lstrip_decompose (rev s)) as [ws [Hs Hws]].
  assert (s = rev (lstrip (rev s)) ++ rev ws) as Heq.
  { rewrite <- rev_app_distr, <- Hs. by rewrite rev_involutive. }
  rewrite Heq at 2. unfold split. rewrite split_from_trailing; [done|].
  rewrite forallb_forall in *. intros x Hx. apply Hws. by apply in_rev.
Qed.

Lemma split_strip (s : pystr) : split (strip s) = split s.
Proof. unfold strip. by rewrite split_lstrip, split_rstrip. Qed.

Lemma word_count_strip (s : pystr) : word_count (strip s) = word_count s.
Proof. unfold word_count. by rewrite split_strip. Qed.

Example split_words :
  split (py "  two   words ") = [py "two"; py "words"].
Proof. reflexivity. Qed.

Example strip_both_ends : strip (9 :: py "  a b " ++ [10; 0xA0]) = py "a b".
Proof. reflexivity. Qed.

Example ten_words_do_not_qualify :
  qualifies (py "a b c d e f g h i j") = false
  ∧ qualifies (py "a b c d e f g h i j k") = true.
Proof. split; reflexivity. Qed.

Lemma qualifies_bounds (s : pystr) :
  qualifies s = true ↔ (10 < word_count s < 50)%nat.
Proof.
  unfold qualifies. rewrite andb_true_iff, !Nat.ltb_lt. done.
Qed.

(** ** The session dict *)

Lemma init_session_fields (s : SessionState) :
  init_session s =
  Session (init_field (audio_data s)) (init_field (file_name s))
    (init_field (transcription s)) (init_field (summary s))
    (init_field (flashcards s)).
Proof.
  destruct s as [[a|] [f|] [t|] [su|] [fl|]]; reflexivity.
Qed.

Lemma reset_app_fresh (s : SessionState) : reset_app s = fresh_session.
Proof.
  destruct s as [[a|] [f|] [t|] [su|] [fl|]]; reflexivity.
Qed.

Lemma init_field_unset {A} (x : option (option A)) :
  unset x → init_field x = Some None.
Proof. by intros [-> | ->]. Qed.

(** ** Runs of the helper functions *)

Section Runs.
Context {Env : Type} (C : Collaborators Env).

(** [transcribe_with_whisper], in full: the reply of the model decides
    the result, and the clean-up runs after either. *)
Lemma transcribe_run (audio : bytes) (w : World Env) :
  let '(path, e1) := temp_name C (py ".webm") (env w) in
  let fs := <[path := audio]> (files w) in
  let '(r, e2) := whisper_transcribe C path fs e1 in
  let '(refusal, e3) := remove_refused C path e2 in
  transcribe_with_whisper C audio w =
  (Ret (reply_value r),
   MkWorld e3 (state w)
     (match refusal with Some _ => fs | None => delete path fs end)
     (trace w ++ CallTranscribe path r
        :: shown_error (py "Transcription failed: ") r
        ++ [CallRemove path refusal])).
Proof.
  destruct (temp_name C (py ".webm") (env w)) as [path e1] eqn:Hn.
  cbv zeta.
  destruct (whisper_transcribe C path _ e1) as [r e2] eqn:Hw.
  destruct (remove_refused C path e2) as [refusal e3] eqn:Hr.
  unfold transcribe_with_whisper, bind, named_temporary_file,
    try_finally, try_except, try_except_all, call, os_remove, st_error,
    ret, log, with_env, with_files; simpl.
  rewrite Hn; simpl. rewrite Hw.
  destruct r as [text|msg]; simpl; rewrite lookup_insert_eq, Hr;
    destruct refusal; simpl; by rewrite <- ?app_assoc.
Qed.

Lemma bind_assoc_run {A B D} (m : M Env A) (f : A → M Env B)
    (k : B → M Env D) (w : World Env) :
  bind (bind m f) k w = bind m (λ a, bind (f a) k) w.
Proof. unfold bind. by destruct (m w) as [[a|e] w1]. Qed.

Lemma bind_attempt {B} (fails : Env → option pystr * Env)
    (k : unit → M Env B) (w : World Env) :
  bind (attempt fails) k w =
  let '(failure, e) := fails (env w) in
  match failure with
  | Some msg => (Raise (PyException msg), with_env e w)
  | None => k () (with_env e w)
  end.
Proof.
  unfold bind, attempt. by destruct (fails (env w)) as [[msg|] e].
Qed.

(** [generate_summary], in full: it raises when the models do not load,
    and otherwise returns the summary, or [None] after showing the
    error. *)
Lemma generate_summary_run (text : pystr) (w : World Env) :
  let '(failure, e0) := load_models_fails C (env w) in
  match failure with
  | Some msg =>
      generate_summary C text w = (Raise (PyException msg), with_env e0 w)
  | None =>
      let '(r, e) := summarizer C text 150 40 e0 in
      generate_summary C text w =
      (Ret (reply_value r),
       MkWorld e (state w) (files w)
         (trace w ++ CallSummarize text r
            :: shown_error (py "Summary failed: ") r))
  end.
Proof.
  unfold generate_summary, load_models. rewrite bind_attempt.
  destruct (load_models_fails C (env w)) as [[msg|] e0]; [done|].
  destruct (summarizer C text 150 40 e0) as [r e] eqn:Hs.
  unfold try_except, bind, call, st_error, ret, log, with_env; simpl.
  rewrite Hs. destruct r; simpl; by rewrite <- ?app_assoc.
Qed.

Lemma for_each_run (sentences : list pystr) :
  ∀ (acc : list flashcard) (w : World Env),
    let '(evs, e) := qg_run C sentences (env w) in
    for_each C sentences acc w =
    (Ret (acc ++ omap card_of_event evs),
     MkWorld e (state w) (files w) (trace w ++ evs)).
Proof.
  induction sentences as [|s rest IH]; intros acc w; simpl.
  - unfold ret. rewrite !app_nil_r. by destruct w.
  - destruct (qg_pipe C s 64 (env w)) as [r e1] eqn:Hq.
    destruct (qg_run C rest e1) as [evs e2] eqn:Hrest.
    unfold flashcard_for, try_except_all, bind, call, ret, log, with_env;
      simpl.
    rewrite Hq. destruct r as [q|msg]; simpl.
    + specialize (IH (acc ++ [Flashcard (strip q) (strip s)])
                    (MkWorld e1 (state w) (files w)
                       (trace w ++ [CallQG s (Ok q)]))).
      simpl in IH. rewrite Hrest in IH. rewrite IH.
      by rewrite <- !app_assoc.
    + specialize (IH acc (MkWorld e1 (state w) (files w)
                            (trace w ++ [CallQG s (Fail msg)]))).
      simpl in IH. rewrite Hrest in IH. rewrite IH.
      by rewrite <- !app_assoc.
Qed.

(** [generate_flashcards], in full: it raises when the models do not
    load or the tokenizer raises, before any question is asked, and
    otherwise returns the flashcards of the calls that succeeded. *)
Lemma generate_flashcards_run (text : pystr) (w : World Env) :
  let '(failure, e0) := flashcards_setup C text (env w) in
  match failure with
  | Some msg =>
      generate_flashcards C text w = (Raise (PyException msg), with_env e0 w)
  | None =>
      let '(evs, e) := qg_run C (take 10 (good_sentences C text)) e0 in
      generate_flashcards C text w =
      (Ret (omap card_of_event evs),
       MkWorld e (state w) (files w) (trace w ++ evs))
  end.
Proof.
  unfold generate_flashcards, flashcards_setup, load_models,
    nltk_sent_tokenize.
  rewrite bind_attempt.
  destruct (load_models_fails C (env w)) as [[msg|] e1]; [done|].
  rewrite bind_assoc_run, bind_attempt. cbn [with_env env].
  destruct (sent_tokenize_fails C text e1) as [[msg|] e0]; [done|].
  unfold bind at 1. cbn [ret]. cbv zeta.
  pose proof (for_each_run (take 10 (good_sentences C text)) []
                (MkWorld e0 (state w) (files w) (trace w))) as H.
  cbn [env state files trace] in H. unfold with_env. cbn [env state files trace].
  by destruct (qg_run C _ e0).
Qed.

Lemma qg_run_asks (sentences : list pystr) :
  ∀ e, Forall2 asks (qg_run C sentences e).1 sentences.
Proof.
  induction sentences as [|s rest IH]; intros e; simpl; [constructor|].
  destruct (qg_pipe C s 64 e) as [r e1].
  specialize (IH e1). destruct (qg_run C rest e1) as [evs e2]. simpl in *.
  constructor; [by exists r | done].
Qed.

(** The two ways [generate_flashcards] can end. *)
Lemma generate_flashcards_cases (text : pystr) (w : World Env) :
  match flashcards_setup C text (env w) with
  | (Some msg, e) =>
      generate_flashcards C text w = (Raise (PyException msg), with_env e w)
  | (None, e0) =>
      ∃ evs e,
        generate_flashcards C text w =
        (Ret (omap card_of_event evs),
         MkWorld e (state w) (files w) (trace w ++ evs))
        ∧ Forall2 asks evs (take 10 (good_sentences C text))
  end.
Proof.
  pose proof (generate_flashcards_run text w) as Hrun.
  destruct (flashcards_setup C text (env w)) as [[msg|] e0]; [done|].
  pose proof (qg_run_asks (take 10 (good_sentences C text)) e0) as Hasks.
  destruct (qg_run C _ e0) as [evs e]. by exists evs, e.
Qed.
End Runs.

(** Each card's answer is the stripped sentence of one of the calls, in
    the order of the calls. *)
Lemma answers_sublist (evs : list Event) (sentences : list pystr) :
  Forall2 asks evs sentences →
  sublist (answer <$> omap card_of_event evs) (strip <$> sentences).
Proof.
  induction 1 as [|ev s evs sentences [r ->] _ IH]; simpl; [constructor|].
  destruct r as [q|msg]; simpl; by constructor.
Qed.

Lemma good_take_qualify {Env} (C : Collaborators Env) (text : pystr) (n : nat) :
  Forall (λ s, qualifies s = true) (take n (good_sentences C text)).
Proof.
  apply Forall_take, List.Forall_forall. intros s Hs.
  by apply List.filter_In in Hs as [_ Hs].
Qed.

Lemma filter_sublist {A} (p : A → bool) (l : list A) :
  sublist (List.filter p l) l.
Proof.
  induction l as [|x l IH]; simpl; [constructor|].
  destruct (p x); by constructor.
Qed.

Lemma new_events_app {Env} (w w' : World Env) (evs : list Event) :
  trace w' = trace w ++ evs → new_events w w' = evs.
Proof. unfold new_events. intros ->. apply drop_app_length. Qed.

(** ** The flashcard generator *)

Section Flashcards.
Context {Env : Type} (C : Collaborators Env).

(** C1: for every transcript, [generate_flashcards] returns at most 10
    flashcards; the sentences it puts to the question generator are
    exactly the first at most 10 qualifying sentences, in the order of
    the transcript, and every answer is one of them, in that order.  The
    one other way it can end is with the error of loading the models or
    of the tokenizer, raised before any question is asked. *)
Theorem flashcards_at_most_ten (text : pystr) (w : World Env) :
  let candidates := take 10 (List.filter qualifies (sent_tokenize C text)) in
  match flashcards_setup C text (env w) with
  | (Some msg, e) =>
      generate_flashcards C text w = (Raise (PyException msg), with_env e w)
  | (None, _) =>
      ∃ cards w',
        generate_flashcards C text w = (Ret cards, w')
        ∧ (length cards ≤ 10)%nat
        ∧ sublist candidates (sent_tokenize C text)
        ∧ Forall2 asks (new_events w w') candidates
        ∧ sublist (answer <$> cards) (strip <$> candidates)
  end.
Proof.
  intros candidates.
  pose proof (generate_flashcards_cases C text w) as Hrun.
  fold (good_sentences C text) in candidates. fold candidates in Hrun.
  destruct (flashcards_setup C text (env w)) as [[msg|] e0]; [done|].
  destruct Hrun as (evs & e & Hrun & Hasks).
  exists (omap card_of_event evs),
    (MkWorld e (state w) (files w) (trace w ++ evs)).
  pose proof (answers_sublist evs candidates Hasks) as Hsub.
  split; [done|]. split; [|split; [|split]].
  - apply sublist_length in Hsub. rewrite !length_fmap in Hsub.
    subst candidates. rewrite length_take in Hsub. lia.
  - subst candidates. etrans; [apply sublist_take|apply filter_sublist].
  - by rewrite (new_events_app w _ evs).
  - done.
Qed.

(** C2: for every transcript, every flashcard returned by
    [generate_flashcards] has an answer of more than 10 and fewer than
    50 words; the transcript "This is a short test." has 5 words, and
    when it is tokenized as the one sentence it is, no flashcard is
    returned.  The one other way the function can end is with the error
    of loading the models or of the tokenizer. *)
Theorem flashcard_answers_qualify (text : pystr) (w : World Env) :
  match flashcards_setup C text (env w) with
  | (Some msg, e) =>
      generate_flashcards C text w = (Raise (PyException msg), with_env e w)
  | (None, _) =>
      ∃ cards w',
        generate_flashcards C text w = (Ret cards, w')
        ∧ Forall (λ c, (10 < word_count (answer c) < 50)%nat) cards
        ∧ word_count (py "This is a short test.") = 5%nat
        ∧ (text = py "This is a short test." →
           sent_tokenize C text = [text] → cards = [])
  end.
Proof.
  pose proof (generate_flashcards_cases C text w) as Hrun.
  destruct (flashcards_setup C text (env w)) as [[msg|] e0]; [done|].
  destruct Hrun as (evs & e & Hrun & Hasks).
  pose proof (good_take_qualify C text 10) as Hgood.
  eexists _, _. split; [exact Hrun|]. split; [|split; [reflexivity|]].
  - clear Hrun. induction Hasks as [|ev s evs ss [r ->] _ IH]; simpl.
    + constructor.
    + apply Forall_cons in Hgood as [Hs Hgood].
      destruct r as [q|msg]; simpl; [constructor|]; auto.
      simpl. rewrite word_count_strip. by apply qualifies_bounds.
  - intros -> Htok. unfold good_sentences in Hasks. rewrite Htok in Hasks.
    simpl in Hasks. by inversion Hasks.
Qed.

(** C3: for every transcript and every behaviour of the question
    generator, the flashcards are those of the calls that succeeded, in
    the order of the candidate sentences, which were all asked; a
    failed call leaves out its own flashcard only.  With five
    candidates of which the third fails, the four others' flashcards
    are returned in order.  The batch as a whole ends early in one case
    only, with the error of loading the models or of the tokenizer,
    before the first question. *)
Theorem flashcards_skip_failures (text : pystr) (w : World Env) :
  let candidates := take 10 (good_sentences C text) in
  match flashcards_setup C text (env w) with
  | (Some msg, e) =>
      generate_flashcards C text w = (Raise (PyException msg), with_env e w)
  | (None, _) =>
      ∃ cards w',
        generate_flashcards C text w = (Ret cards, w')
        ∧ Forall2 asks (new_events w w') candidates
        ∧ cards = omap card_of_event (new_events w w')
        ∧ sublist (answer <$> cards) (strip <$> candidates)
        ∧ (∀ s1 s2 s3 s4 s5 q1 q2 msg q4 q5,
             new_events w w' =
               [CallQG s1 (Ok q1); CallQG s2 (Ok q2); CallQG s3 (Fail msg);
                CallQG s4 (Ok q4); CallQG s5 (Ok q5)] →
             candidates = [s1; s2; s3; s4; s5]
             ∧ cards =
                 [Flashcard (strip q1) (strip s1);
                  Flashcard (strip q2) (strip s2);
                  Flashcard (strip q4) (strip s4);
                  Flashcard (strip q5) (strip s5)])
  end.
Proof.
  intros candidates.
  pose proof (generate_flashcards_cases C text w) as Hrun.
  fold candidates in Hrun.
  destruct (flashcards_setup C text (env w)) as [[msg|] e0]; [done|].
  destruct Hrun as (evs & e & Hrun & Hasks).
  eexists _, _. split; [exact Hrun|].
  rewrite (new_events_app w _ evs) by done.
  split; [done|]. split; [done|]. split; [by apply answers_sublist|].
  intros s1 s2 s3 s4 s5 q1 q2 msg q4 q5 ->. split; [|done].
  repeat match goal with
         | H : Forall2 asks _ _ |- _ => inversion H; clear H; subst
         | H : asks _ _ |- _ => destruct H as [? [= <- _]]
         end.
  done.
Qed.
End Flashcards.

(** Ten qualifying sentences and one more: the first ten are asked about,
    and the one failed call leaves nine flashcards. *)
Example eleven_sentences_ten_asked :
  let '(r, w') := generate_flashcards Toy.collab Toy.eleven Toy.start in
  length (good_sentences Toy.collab Toy.eleven) = 11%nat
  ∧ length (trace w') = 10%nat
  ∧ ∃ cards, r = Ret cards ∧ length cards = 9%nat.
Proof. vm_compute. repeat split. by eexists. Qed.

Lemma flashcard_answers_qualify_witness :
  ∃ w', generate_flashcards Toy.collab Toy.short Toy.start = (Ret [], w').
Proof.
  destruct (flashcard_answers_qualify Toy.collab Toy.short Toy.start)
    as (cards & w' & Hrun & _ & _ & Hshort).
  exists w'. rewrite Hrun. f_equal. f_equal. apply Hshort; reflexivity.
Defined.

Lemma flashcards_skip_failures_witness :
  ∃ cards w',
    generate_flashcards Toy.collab (py Toy.lecture) Toy.start = (Ret cards, w')
    ∧ length cards = 4%nat
    ∧ length (take 10 (good_sentences Toy.collab (py Toy.lecture))) = 5%nat.
Proof.
  destruct (flashcards_skip_failures Toy.collab (py Toy.lecture) Toy.start)
    as (cards & w' & Hrun & _ & _ & _ & Hfive).
  exists cards, w'. split; [exact Hrun|].
  vm_compute in Hrun. injection Hrun as <- <-.
  edestruct Hfive as [Hcands Hcards]; [vm_compute; reflexivity|].
  by rewrite Hcands, Hcards.
Defined.

(** ** Reset *)

(** C6: from any session state, [reset_app] removes all five keys (audio
    blob, file name, transcript, summary, flashcards), which is the state
    of a session not yet started; the initialisation at the top of the
    next pass then sets all five to [None], as in a new session, and the
    pass after a reset is the first pass of a new session. *)
Theorem reset_clears_session {Env} (C : Collaborators Env)
    (s : SessionState) (ui : Widgets) (w : World Env) :
  Forall (λ k, has_key k (reset_app s) = false) session_keys
  ∧ reset_app s = fresh_session
  ∧ init_session (reset_app s) = init_session fresh_session
  ∧ init_session (reset_app s) =
      Session (Some None) (Some None) (Some None) (Some None) (Some None)
  ∧ step C (StartOver ui) w = step C (Rerun ui) (with_state fresh_session w).
Proof.
  rewrite !reset_app_fresh. split; [|split; [|split; [|split]]]; try done.
  - by repeat constructor.
  - unfold step. by rewrite reset_app_fresh.
Qed.

(** ** Transcription and its temporary file *)

Section Transcription.
Context {Env : Type} (C : Collaborators Env).

(** C9: every call of [transcribe_with_whisper] returns normally, with
    the transcript when the model succeeds and [None] when it fails.  On
    both paths the last thing it does is call [os.remove] on the
    temporary file it wrote: when the operating system does not refuse,
    the file is removed, and the files are then those from before the
    call without that path; when it refuses, the error is swallowed,
    the result is the same and the file stays. *)
Theorem temp_file_removed (audio : bytes) (w : World Env) :
  let '(path, e1) := temp_name C (py ".webm") (env w) in
  let fs := <[path := audio]> (files w) in
  let '(r, e2) := whisper_transcribe C path fs e1 in
  let '(refusal, e3) := remove_refused C path e2 in
  ∃ w',
    transcribe_with_whisper C audio w = (Ret (reply_value r), w')
    ∧ new_events w w' =
        CallTranscribe path r
          :: shown_error (py "Transcription failed: ") r
          ++ [CallRemove path refusal]
    ∧ files w' =
        match refusal with Some _ => fs | None => delete path (files w) end
    ∧ files w' !! path =
        match refusal with Some _ => Some audio | None => None end.
Proof.
  pose proof (transcribe_run C audio w) as Hrun.
  destruct (temp_name C (py ".webm") (env w)) as [path e1].
  cbv zeta in Hrun |- *.
  destruct (whisper_transcribe C path _ e1) as [r e2].
  destruct (remove_refused C path e2) as [refusal e3].
  eexists. split; [exact Hrun|]. split; [by apply new_events_app|].
  cbn [files]. destruct refusal as [msg|].
  - split; [done|]. by rewrite lookup_insert_eq.
  - split; [by rewrite delete_insert_eq|]. by rewrite lookup_delete_eq.
Qed.

Lemma transcribe_inert (audio : bytes) (w : World Env) :
  ∃ r w',
    transcribe_with_whisper C audio w = (Ret (reply_value r), w')
    ∧ state w' = state w
    ∧ ∃ evs, trace w' = trace w ++ evs
             ∧ Forall (λ ev, is_generation ev = false) evs.
Proof.
  pose proof (transcribe_run C audio w) as Hrun.
  destruct (temp_name C (py ".webm") (env w)) as [path e1]. cbv zeta in Hrun.
  destruct (whisper_transcribe C path _ e1) as [r e2].
  destruct (remove_refused C path e2) as [refusal e3].
  eexists r, _. split; [exact Hrun|]. split; [done|].
  eexists; split; [done|]. destruct r; by repeat constructor.
Qed.

(** What transcription returns, and the hidden state it leaves, depend
    on the hidden state and the files only. *)
Lemma transcribe_same (audio : bytes) (w w2 : World Env) :
  env w2 = env w → files w2 = files w →
  (transcribe_with_whisper C audio w2).1 = (transcribe_with_whisper C audio w).1
  ∧ env (transcribe_with_whisper C audio w2).2
    = env (transcribe_with_whisper C audio w).2.
Proof.
  intros He Hf.
  pose proof (transcribe_run C audio w) as Hrun.
  pose proof (transcribe_run C audio w2) as Hrun2.
  rewrite He, Hf in Hrun2.
  destruct (temp_name C (py ".webm") (env w)) as [path e1].
  cbv zeta in Hrun, Hrun2.
  destruct (whisper_transcribe C path _ e1) as [r e2].
  destruct (remove_refused C path e2) as [refusal e3].
  by rewrite Hrun, Hrun2.
Qed.
End Transcription.

(** ** The processing pass *)

Section Pipeline.
Context {Env : Type} (C : Collaborators Env).

Lemma bind_run {A B} (m : M Env A) (k : A → M Env B) (w w' : World Env)
    (a : A) :
  m w = (Ret a, w') → bind m k w = k a w'.
Proof. unfold bind. by intros ->. Qed.

Lemma bind_assign {B} (set : SessionState → SessionState)
    (k : unit → M Env B) (w : World Env) :
  bind (assign set) k w = k () (with_state (set (state w)) w).
Proof. reflexivity. Qed.

(** With audio and no transcript, a pass is the processing branch. *)
Lemma script_processing (ui : Widgets) (w : World Env) (audio : bytes) :
  audio_data (state w) = Some (Some audio) →
  unset (transcription (state w)) →
  script C ui w = processing C audio (with_audio_offered audio w).
Proof.
  intros Ha Ht. unfold script, with_audio_offered. rewrite bind_assign.
  unfold bind at 1, attr at 1. cbn [with_state state].
  rewrite init_session_fields. cbn [audio_data]. rewrite Ha.
  cbn [init_field default from_option id].
  unfold bind at 1, attr at 1. cbn [state file_name init_field].
  unfold bind at 1, st_download_audio at 1.
  unfold bind at 1, attr at 1. cbn [log state transcription].
  by destruct Ht as [-> | ->].
Qed.

(** A transcript that is [None] or empty ends the pass there. *)
Lemma processing_falsy (audio : bytes) (w0 w1 : World Env)
    (t : option pystr) :
  transcribe_with_whisper C audio w0 = (Ret t, w1) →
  truthy t = false →
  processing C audio w0 =
  (Ret (), with_state (set_transcription t (state w1)) w1).
Proof.
  intros Hrun Ht. unfold processing.
  rewrite (bind_run _ _ _ _ _ Hrun), bind_assign. by rewrite Ht.
Qed.

Lemma bind_raise {A B} (m : M Env A) (k : A → M Env B) (w w' : World Env)
    (e : exn) :
  m w = (Raise e, w') → bind m k w = (Raise e, w').
Proof. unfold bind. by intros ->. Qed.

(** What a non-empty transcript leads to, in full: the pass stops with
    the error of loading the models, or summarizes and then stops with
    the error of loading or tokenizing, or summarizes, makes the
    flashcards and asks for a rerun. *)
Lemma processing_truthy_run (audio : bytes) (w0 w1 : World Env)
    (text : pystr) :
  transcribe_with_whisper C audio w0 = (Ret (Some text), w1) →
  text ≠ [] →
  let s1 := set_transcription (Some text) (state w1) in
  let '(failure, e1) := load_models_fails C (env w1) in
  match failure with
  | Some msg =>
      processing C audio w0 =
      (Raise (PyException msg), MkWorld e1 s1 (files w1) (trace w1))
  | None =>
      let '(r, e2) := summarizer C text 150 40 e1 in
      let s2 := set_summary (reply_value r) s1 in
      let tr2 := trace w1 ++ CallSummarize text r
                   :: shown_error (py "Summary failed: ") r in
      let '(failure2, e3) := flashcards_setup C text e2 in
      match failure2 with
      | Some msg =>
          processing C audio w0 =
          (Raise (PyException msg), MkWorld e3 s2 (files w1) tr2)
      | None =>
          let '(evs, e4) := qg_run C (take 10 (good_sentences C text)) e3 in
          processing C audio w0 =
          (Raise RerunException,
           MkWorld e4 (set_flashcards (Some (omap card_of_event evs)) s2)
             (files w1) (tr2 ++ evs))
      end
  end.
Proof.
  intros Hrun Ht. cbv zeta.
  unfold processing. rewrite (bind_run _ _ _ _ _ Hrun), bind_assign.
  destruct text as [|c text]; [done|].
  cbn [truthy when default from_option id].
  set (t := c :: text) in *.
  pose proof (generate_summary_run C t
                (with_state (set_transcription (Some t) (state w1)) w1))
    as Hsum.
  cbn [with_state env state files trace] in Hsum.
  destruct (load_models_fails C (env w1)) as [[msg|] e1].
  { by rewrite (bind_raise _ _ _ _ _ Hsum). }
  destruct (summarizer C t 150 40 e1) as [r e2].
  rewrite (bind_run _ _ _ _ _ Hsum), bind_assign.
  cbn [with_state env state files trace].
  match goal with
  | |- context [bind (generate_flashcards C t) _ ?w] =>
      pose proof (generate_flashcards_run C t w) as Hfl
  end.
  cbn [with_state env state files trace] in Hfl.
  destruct (flashcards_setup C t e2) as [[msg|] e3].
  { by rewrite (bind_raise _ _ _ _ _ Hfl). }
  destruct (qg_run C _ e3) as [evs e4].
  rewrite (bind_run _ _ _ _ _ Hfl), bind_assign.
  cbn [with_state env state files trace]. unfold st_rerun, raise.
  by rewrite <- app_assoc.
Qed.

Lemma dependable_setup (text : pystr) (e : Env) :
  dependable C → (flashcards_setup C text e).1 = None.
Proof.
  intros [Hload Htok]. unfold flashcards_setup.
  specialize (Hload e). destruct (load_models_fails C e) as [failure e1].
  simpl in Hload. subst failure. apply Htok.
Qed.

(** A non-empty transcript is summarized and turned into flashcards,
    when loading the models and tokenizing do not raise. *)
Lemma processing_truthy (audio : bytes) (w0 w1 : World Env) (text : pystr) :
  dependable C →
  transcribe_with_whisper C audio w0 = (Ret (Some text), w1) →
  text ≠ [] →
  ∃ r evs e,
    processing C audio w0 =
    (Raise RerunException,
     MkWorld e
       (set_flashcards (Some (omap card_of_event evs))
          (set_summary (reply_value r)
             (set_transcription (Some text) (state w1))))
       (files w1)
       (trace w1 ++ CallSummarize text r
          :: shown_error (py "Summary failed: ") r ++ evs))
    ∧ Forall2 asks evs (take 10 (good_sentences C text)).
Proof.
  intros Hdep Hrun Ht.
  pose proof (processing_truthy_run audio w0 w1 text Hrun Ht) as Hp.
  cbv zeta in Hp.
  pose proof (proj1 Hdep (env w1)) as Hl1.
  destruct (load_models_fails C (env w1)) as [failure e1].
  simpl in Hl1. subst failure.
  destruct (summarizer C text 150 40 e1) as [r e2].
  pose proof (dependable_setup text e2 Hdep) as Hl2.
  destruct (flashcards_setup C text e2) as [failure e3].
  simpl in Hl2. subst failure.
  pose proof (qg_run_asks C (take 10 (good_sentences C text)) e3) as Hasks.
  destruct (qg_run C _ e3) as [evs e4].
  exists r, evs, e4. rewrite Hp. split; [|done].
  by rewrite <- app_assoc.
Qed.
End Pipeline.

(** ** Passes that leave the transcript alone *)

Section Preserved.
Context {Env : Type} (C : Collaborators Env).

#[local] Instance quiet_preorder : PreOrder (@quiet Env).
Proof.
  split.
  - intros w. split; [done|]. exists []. by rewrite app_nil_r.
  - intros w1 w2 w3 [Hs1 (evs1 & Ht1 & Hd1)] [Hs2 (evs2 & Ht2 & Hd2)].
    split; [congruence|]. exists (evs1 ++ evs2).
    rewrite Ht2, Ht1, app_assoc. split; [done|]. by apply Forall_app.
Qed.

#[local] Instance keeps_transcript_preorder : PreOrder (@keeps_transcript Env).
Proof.
  split.
  - intros w. split; [done|]. exists []. by rewrite app_nil_r.
  - intros w1 w2 w3 [Hs1 (evs1 & Ht1 & Hd1)] [Hs2 (evs2 & Ht2 & Hd2)].
    split; [congruence|]. exists (evs1 ++ evs2).
    rewrite Ht2, Ht1, app_assoc. split; [done|]. by apply Forall_app.
Qed.

Lemma quiet_keeps (w w' : World Env) : quiet w w' → keeps_transcript w w'.
Proof. intros [Hs Hev]. split; [by rewrite Hs|done]. Qed.

Lemma preserved_weaken {A} (m : M Env A) :
  preserved quiet m → preserved keeps_transcript m.
Proof. intros H w. apply quiet_keeps, H. Qed.

Section Closure.
Context (R : relation (World Env)) `{!PreOrder R}.

Lemma preserved_ret {A} (a : A) : preserved R (ret a).
Proof. intros w. simpl. reflexivity. Qed.

Lemma preserved_raise {A} (e : exn) : preserved R (@raise Env A e).
Proof. intros w. simpl. reflexivity. Qed.

Lemma preserved_bind {A B} (m : M Env A) (k : A → M Env B) :
  preserved R m → (∀ a, preserved R (k a)) → preserved R (bind m k).
Proof.
  intros Hm Hk w. unfold bind. specialize (Hm w).
  destruct (m w) as [[a|e] w1]; simpl in *; [|done].
  etrans; [exact Hm|apply Hk].
Qed.

Lemma preserved_when (b : bool) (m : M Env unit) :
  preserved R m → preserved R (when b m).
Proof. intros Hm. destruct b; [done|apply preserved_ret]. Qed.

Lemma preserved_attr {A} (field : SessionState → option A) :
  preserved R (attr field).
Proof. intros w. unfold attr. destruct (field (state w)); reflexivity. Qed.
End Closure.

Lemma now_strftime_quiet (format : pystr) :
  preserved quiet (now_strftime C format).
Proof.
  intros w. unfold now_strftime. destruct (datetime_now C (env w)).
  split; [done|]. exists []. by rewrite app_nil_r.
Qed.

Lemma download_quiet (label data name : pystr) :
  preserved quiet (@st_download_button Env label data name).
Proof.
  intros w. split; [done|]. eexists; split; [done|]. by repeat constructor.
Qed.

Lemma assign_file_name_keeps (v : option pystr) :
  preserved keeps_transcript (@assign Env (set_file_name v)).
Proof. intros w. split; [done|]. exists []. by rewrite app_nil_r. Qed.

Lemma assign_audio_data_keeps (v : option bytes) :
  preserved keeps_transcript (@assign Env (set_audio_data v)).
Proof. intros w. split; [done|]. exists []. by rewrite app_nil_r. Qed.

Ltac preserve :=
  repeat match goal with
    | |- preserved ?R (bind _ _) => apply (preserved_bind R); [|intros ?]
    | |- preserved ?R (when _ _) => apply (preserved_when R)
    | |- preserved ?R (ret _) => apply (preserved_ret R)
    | |- preserved ?R (raise _) => apply (preserved_raise R)
    | |- preserved ?R (attr _) => apply (preserved_attr R)
    | |- preserved quiet (now_strftime _ _) => apply now_strftime_quiet
    | |- preserved quiet (st_download_button _ _ _) => apply download_quiet
    | |- preserved keeps_transcript (assign (set_file_name _)) =>
        apply assign_file_name_keeps
    | |- preserved keeps_transcript (assign (set_audio_data _)) =>
        apply assign_audio_data_keeps
    end.

Lemma export_all_quiet : preserved quiet (export_all C).
Proof. unfold export_all. preserve. Qed.

Lemma results_view_quiet (ui : Widgets) (text : pystr) :
  preserved quiet (results_view C ui text).
Proof. unfold results_view. cbv zeta. preserve. apply export_all_quiet. Qed.

Lemma input_view_keeps (ui : Widgets) :
  preserved keeps_transcript (input_view C ui).
Proof.
  unfold input_view, st_rerun. preserve.
  - apply preserved_weaken, now_strftime_quiet.
  - destruct (uploader ui) as [[name data]|]; preserve.
Qed.

(** Once there is a transcript, a pass of the script shows results or
    takes input; it does not transcribe. *)
Lemma script_keeps (ui : Widgets) (w : World Env) (t : pystr) :
  transcription (state w) = Some (Some t) →
  keeps_transcript w (script C ui w).2.
Proof.
  intros Ht. unfold script. rewrite bind_assign.
  set (w0 := with_state (init_session (state w)) w).
  assert (keeps_transcript w w0) as H0.
  { split; [|exists []; by rewrite app_nil_r].
    unfold w0. cbn [with_state state]. rewrite init_session_fields.
    cbn [transcription]. by rewrite Ht. }
  assert (transcription (state w0) = Some (Some t)) as Ht0.
  { destruct H0 as [-> _]. done. }
  unfold bind at 1. unfold attr at 1.
  destruct (audio_data (state w0)) as [[audio|]|]; cbn [snd].
  - unfold bind at 1. unfold attr at 1.
    destruct (file_name (state w0)) as [name|]; [|done].
    unfold bind at 1, st_download_audio at 1.
    unfold bind at 1, attr at 1. cbn [log state]. rewrite Ht0.
    etrans; [exact H0|]. etrans; [|apply quiet_keeps, results_view_quiet].
    split; [done|]. eexists; split; [done|]. by repeat constructor.
  - etrans; [exact H0|]. apply input_view_keeps.
  - done.
Qed.

Lemma steps_keep (l : list Interaction) :
  ∀ (w : World Env) (t : pystr),
    transcription (state w) = Some (Some t) →
    forallb is_rerun l = true →
    keeps_transcript w (steps C l w).
Proof.
  induction l as [|i l IH]; intros w t Ht Hl; [reflexivity|].
  simpl in Hl. apply andb_true_iff in Hl as [Hi Hl].
  destruct i as [ui|ui]; [|done]. unfold steps. cbn [fold_left step].
  pose proof (script_keeps ui w t Ht) as Hk.
  etrans; [exact Hk|]. apply (IH _ t); [|done].
  destruct Hk as [-> _]. done.
Qed.
End Preserved.

Lemma downloads_not_calls (evs : list Event) :
  Forall (λ ev, is_download ev = true) evs →
  Forall (λ ev, is_transcribe ev = false) evs
  ∧ Forall (λ ev, is_generation ev = false) evs.
Proof.
  intros H. split; (eapply Forall_impl; [exact H|]); by intros [].
Qed.

(** ** The pipeline after transcription *)

Section Stages.
Context {Env : Type} (C : Collaborators Env).

(** A pass whose transcription gives [None] or the empty string stores
    that and does nothing else. *)
Lemma falsy_pass (ui : Widgets) (w : World Env) (audio : bytes)
    (t : option pystr) :
  audio_data (state w) = Some (Some audio) →
  unset (transcription (state w)) →
  (transcribe_with_whisper C audio
     (with_state (init_session (state w)) w)).1 = Ret t →
  truthy t = false →
  let w' := step C (Rerun ui) w in
  transcription (state w') = Some t
  ∧ summary (state w') = init_field (summary (state w))
  ∧ flashcards (state w') = init_field (flashcards (state w))
  ∧ Forall (λ ev, is_generation ev = false) (new_events w w').
Proof.
  intros Ha Hu Hrun Hf w'. subst w'. unfold step.
  rewrite (script_processing C ui w audio Ha Hu).
  destruct (transcribe_inert C audio (with_audio_offered audio w))
    as (r & w1 & Hr & Hst & evs & Htr & Hq).
  destruct (transcribe_same C audio (with_state (init_session (state w)) w)
              (with_audio_offered audio w) eq_refl eq_refl) as [Hsame _].
  rewrite Hr, Hrun in Hsame. cbn [fst] in Hsame. injection Hsame as Hsame.
  rewrite Hsame in Hr. rewrite (processing_falsy C _ _ _ _ Hr Hf).
  cbn [snd with_state state trace] in *. rewrite Hst.
  unfold with_audio_offered in *. cbn [log with_state state trace] in *.
  rewrite init_session_fields. repeat split; try done.
  erewrite new_events_app;
    [|cbn [with_state trace]; rewrite Htr, <- app_assoc; reflexivity].
  by constructor.
Qed.

(** C5: when transcription fails ([transcribe_with_whisper] returns
    [None]), the pass stores [None] as the transcript and calls neither
    the summarizer nor the question generator; the summary and flashcards
    fields are left as they were, so unset fields stay unset. *)
Theorem failed_transcription_halts (ui : Widgets) (w : World Env)
    (audio : bytes) :
  audio_data (state w) = Some (Some audio) →
  unset (transcription (state w)) →
  (transcribe_with_whisper C audio
     (with_state (init_session (state w)) w)).1 = Ret None →
  let w' := step C (Rerun ui) w in
  transcription (state w') = Some None
  ∧ summary (state w') = init_field (summary (state w))
  ∧ flashcards (state w') = init_field (flashcards (state w))
  ∧ (unset (summary (state w)) → summary (state w') = Some None)
  ∧ (unset (flashcards (state w)) → flashcards (state w') = Some None)
  ∧ Forall (λ ev, is_generation ev = false) (new_events w w').
Proof.
  intros Ha Hu Hrun w'.
  destruct (falsy_pass ui w audio None Ha Hu Hrun eq_refl)
    as (Ht & Hs & Hf & Hev).
  fold w' in Ht, Hs, Hf, Hev. repeat split; try done.
  - intros H. by rewrite Hs, (init_field_unset _ H).
  - intros H. by rewrite Hf, (init_field_unset _ H).
Qed.

(** C10: when transcription succeeds with the empty string, the pass
    stores the empty string as the transcript, so that later passes no
    longer transcribe, but it calls neither the summarizer nor the
    question generator and leaves summary and flashcards as they were:
    the guard is the truth value of the transcript. *)
Theorem empty_transcript_skips_generation (ui : Widgets) (w : World Env)
    (audio : bytes) :
  audio_data (state w) = Some (Some audio) →
  unset (transcription (state w)) →
  (transcribe_with_whisper C audio
     (with_state (init_session (state w)) w)).1 = Ret (Some []) →
  let w' := step C (Rerun ui) w in
  transcription (state w') = Some (Some [])
  ∧ summary (state w') = init_field (summary (state w))
  ∧ flashcards (state w') = init_field (flashcards (state w))
  ∧ (unset (summary (state w)) → summary (state w') = Some None)
  ∧ (unset (flashcards (state w)) → flashcards (state w') = Some None)
  ∧ Forall (λ ev, is_generation ev = false) (new_events w w')
  ∧ (∀ ui', Forall (λ ev, is_transcribe ev = false)
              (new_events w' (step C (Rerun ui') w'))).
Proof.
  intros Ha Hu Hrun w'.
  destruct (falsy_pass ui w audio (Some []) Ha Hu Hrun eq_refl)
    as (Ht & Hs & Hf & Hev).
  fold w' in Ht, Hs, Hf, Hev. repeat split; try done.
  - intros H. by rewrite Hs, (init_field_unset _ H).
  - intros H. by rewrite Hf, (init_field_unset _ H).
  - intros ui'. destruct (script_keeps C ui' w' [] Ht) as (_ & evs & Htr & Hd).
    unfold step. rewrite (new_events_app w' _ evs Htr).
    by apply downloads_not_calls.
Qed.


(** C7: once the transcript holds a value, no sequence of passes without
    a reset changes it, and none of them calls the transcription model. *)
Theorem transcript_never_recomputed (l : list Interaction) (w : World Env)
    (t : pystr) :
  transcription (state w) = Some (Some t) →
  forallb is_rerun l = true →
  transcription (state (steps C l w)) = Some (Some t)
  ∧ Forall (λ ev, is_transcribe ev = false) (new_events w (steps C l w)).
Proof.
  intros Ht Hl.
  destruct (steps_keep C l w t Ht Hl) as (Hk & evs & Htr & Hd).
  split; [by rewrite Hk|].
  rewrite (new_events_app w _ evs Htr). by apply downloads_not_calls.
Qed.
End Stages.

(** The temporary file after a pass that transcribed: gone, and still
    there when the operating system refuses to remove it; the transcript
    is the same. *)
Example temp_file_after_processing :
  let w := step Toy.collab (Rerun Toy.no_input)
             (Toy.acquired (Toy.audio_of Toy.terse)) in
  let w' := step Toy.locked (Rerun Toy.no_input)
              (Toy.acquired (Toy.audio_of Toy.terse)) in
  files w !! py "/tmp/tmpaudio.webm" = None
  ∧ files w' !! py "/tmp/tmpaudio.webm" = Some (Toy.audio_of Toy.terse)
  ∧ transcription (state w) = Some (Some (py Toy.terse))
  ∧ transcription (state w') = Some (Some (py Toy.terse)).
Proof. vm_compute. done. Qed.

Lemma failed_transcription_halts_witness :
  let w' := step Toy.collab (Rerun Toy.no_input) (Toy.acquired Toy.garbled) in
  summary (state w') = Some None ∧ flashcards (state w') = Some None.
Proof.
  intros w'.
  destruct (failed_transcription_halts Toy.collab Toy.no_input
              (Toy.acquired Toy.garbled) Toy.garbled)
    as (_ & _ & _ & Hs & Hf & _).
  - reflexivity.
  - right. reflexivity.
  - vm_compute. reflexivity.
  - split; [apply Hs|apply Hf]; right; reflexivity.
Defined.

Lemma empty_transcript_skips_generation_witness :
  let w' := step Toy.collab (Rerun Toy.no_input) (Toy.acquired []) in
  transcription (state w') = Some (Some [])
  ∧ summary (state w') = Some None ∧ flashcards (state w') = Some None.
Proof.
  intros w'.
  destruct (empty_transcript_skips_generation Toy.collab Toy.no_input
              (Toy.acquired []) [])
    as (Ht & _ & _ & Hs & Hf & _).
  - reflexivity.
  - right. reflexivity.
  - vm_compute. reflexivity.
  - split; [exact Ht|]. split; [apply Hs|apply Hf]; right; reflexivity.
Defined.



Lemma transcript_never_recomputed_witness :
  let w := Toy.processed Toy.lecture in
  transcription
    (state (steps Toy.collab [Rerun Toy.no_input; Rerun Toy.press_export] w))
  = Some (Some (py Toy.lecture)).
Proof.
  intros w.
  refine (proj1 (transcript_never_recomputed Toy.collab _ w (py Toy.lecture)
                   _ _)); vm_compute; reflexivity.
Defined.

(** ** The combined report *)

Lemma initialized_fields (s : SessionState) :
  initialized s →
  ∃ a fn tr su fc, s = Session (Some a) (Some fn) (Some tr) (Some su) (Some fc).
Proof.
  unfold initialized, session_keys. rewrite !Forall_cons.
  destruct s as [[a|] [fn|] [tr|] [su|] [fc|]]; cbv;
    intros (Ha & Hfn & Htr & Hsu & Hfc & _); try discriminate.
  by exists a, fn, tr, su, fc.
Qed.

Lemma report_cards_imap (cards : list flashcard) :
  ∀ (i : nat) (acc : pystr),
    report_cards i cards acc =
    acc ++ concat (imap (λ j, report_card (i + j)) cards).
Proof.
  induction cards as [|card rest IH]; intros i acc;
    cbn [report_cards imap concat].
  - by rewrite app_nil_r.
  - rewrite IH, <- app_assoc, Nat.add_0_r. do 3 f_equal.
    apply imap_ext. intros j c _. unfold compose. f_equal. lia.
Qed.

Lemma report_head_placeholder (fn tr : option pystr) (gen tail : pystr) :
  occurs_in ([10] ++ py "=== SUMMARY ===" ++ [10] ++ py "No summary" ++ [10])
    (report_head fn gen tr None ++ tail).
Proof.
  exists (py "LECTURE ANALYSIS REPORT" ++ [10]
          ++ py "File: " ++ fmt fn ++ [10]
          ++ py "Generated: " ++ gen ++ [10]
          ++ [10]
          ++ py "=== TRANSCRIPTION ===" ++ [10]
          ++ fmt tr ++ [10]),
    ([10] ++ py "=== FLASHCARDS ===" ++ [10] ++ tail).
  unfold report_head, or_else. by rewrite <- !app_assoc.
Qed.

Section Report.
Context {Env : Type} (C : Collaborators Env).

(** The export on an initialised session, in full. *)
Lemma export_all_run (w : World Env) :
  initialized (state w) →
  let '(d1, e1) := datetime_now C (env w) in
  let '(d2, e2) := datetime_now C e1 in
  export_all C w =
  (Ret (report_text (state w) (export_generated C (env w))),
   MkWorld e2 (state w) (files w)
     (trace w ++
      [OfferDownload (0x1F4E5 :: py " Download Report")
         (report_text (state w) (export_generated C (env w)))
         (py "lecture_analysis_" ++ strftime C d1 (py "%Y%m%d_%H%M%S")
          ++ py ".txt")])).
Proof.
  intros (a & fn & tr & su & fc & Hs)%initialized_fields.
  unfold export_generated.
  destruct (datetime_now C (env w)) as [d1 e1] eqn:H1.
  destruct (datetime_now C e1) as [d2 e2] eqn:H2.
  unfold export_all, report_text, bind, now_strftime, attr,
    st_download_button, ret, log, with_env.
  rewrite H1. cbn [env state files trace]. rewrite Hs.
  cbn [file_name env]. rewrite H2. reflexivity.
Qed.

(** C8: the export leaves the session as it is, and its report is a
    function of the session and of the time on its [Generated:] line
    alone.  Run twice in a row with the clock showing the same time, it
    gives the same text.  The text has the line "No summary" when the
    summary is [None], and ends with one block per flashcard, the block
    at position [i] (from 0) being headed [Card i+1], so the first is
    [Card 1]. *)
Theorem export_report_pure (w : World Env) :
  initialized (state w) →
  let cards := default [] (default None (flashcards (state w))) in
  ∃ r1 w1 r2 w2,
    export_all C w = (Ret r1, w1) ∧ state w1 = state w
    ∧ export_all C w1 = (Ret r2, w2) ∧ state w2 = state w
    ∧ r1 = report_text (state w) (export_generated C (env w))
    ∧ r2 = report_text (state w) (export_generated C (env w1))
    ∧ (export_generated C (env w1) = export_generated C (env w) → r2 = r1)
    ∧ (summary (state w) = Some None →
       occurs_in ([10] ++ py "=== SUMMARY ===" ++ [10] ++ py "No summary"
                  ++ [10]) r1)
    ∧ (∃ head,
         r1 = head ++ concat (imap (λ i card,
                [10] ++ py "Card " ++ decimal (i + 1) ++ [10]
                ++ py "Q: " ++ question card ++ [10]
                ++ py "A: " ++ answer card ++ [10]) cards))
    ∧ decimal (0 + 1) = py "1".
Proof.
  intros Hinit cards.
  pose proof (export_all_run w Hinit) as Hrun1.
  destruct (datetime_now C (env w)) as [d1 e1].
  destruct (datetime_now C e1) as [d2 e2].
  eexists _, _. 
  match type of Hrun1 with
  | _ = (_, ?w1) =>
      pose proof (export_all_run w1 Hinit) as Hrun2;
      cbn [env state files trace] in Hrun2;
      destruct (datetime_now C e2) as [d3 e3];
      destruct (datetime_now C e3) as [d4 e4]
  end.
  eexists _, _. split; [exact Hrun1|]. split; [done|].
  split; [exact Hrun2|]. split; [done|]. split; [done|]. split; [done|].
  cbn [env]. split; [by intros ->|]. split; [|split; [|done]].
  - intros Hsum. unfold report_text, report_head. rewrite Hsum.
    rewrite report_cards_imap. cbn [default from_option id].
    apply report_head_placeholder.
  - unfold report_text. rewrite report_cards_imap. by eexists.
Qed.
End Report.

Lemma export_report_pure_witness :
  ∃ r w1 w2,
    export_all Toy.collab (Toy.processed Toy.terse) = (Ret r, w1)
    ∧ export_all Toy.collab w1 = (Ret r, w2)
    ∧ occurs_in ([10] ++ py "=== SUMMARY ===" ++ [10] ++ py "No summary"
                 ++ [10]) r.
Proof.
  destruct (export_report_pure Toy.collab (Toy.processed Toy.terse))
    as (r1 & w1 & r2 & w2 & H1 & _ & H2 & _ & _ & _ & Hsame & Hnone & _).
  - vm_compute. repeat constructor.
  - exists r1, w1, w2. split; [exact H1|].
    split; [|apply Hnone; reflexivity].
    rewrite H2. f_equal. f_equal. apply Hsame.
    cbv [export_generated Toy.collab datetime_now strftime]. reflexivity.
Defined.

(** ** Further properties of the script *)

(** *** Stripped text *)

Lemma lstrip_head (s : pystr) (c : N) :
  head (lstrip s) = Some c → isspace c = false.
Proof.
  induction s as [|x s IH]; simpl; [done|].
  destruct (isspace x) eqn:Hx; [done|]. by intros [= <-].
Qed.

Lemma lstrip_last (s : pystr) (c : N) :
  last (lstrip s) = Some c → last s = Some c.
Proof.
  destruct (lstrip_decompose s) as (ws & Hs & _). intros H.
  rewrite Hs. apply last_app_Some. by left.
Qed.

Lemma last_rev_head (s : pystr) : last (rev s) = head s.
Proof. destruct s as [|x s]; [done|]. simpl. apply last_snoc. Qed.

Lemma rstrip_last (s : pystr) (c : N) :
  last (rstrip s) = Some c → isspace c = false.
Proof. unfold rstrip. rewrite last_rev_head. apply lstrip_head. Qed.

Lemma strip_is_trimmed (s : pystr) : trimmed (strip s).
Proof.
  split; intros c Hc.
  - by apply (lstrip_head (rstrip s)).
  - by apply (rstrip_last s), lstrip_last.
Qed.

Lemma lstrip_fixed (s : pystr) :
  (∀ c, head s = Some c → isspace c = false) → lstrip s = s.
Proof.
  destruct s as [|x s]; [done|]. intros H. simpl. by rewrite (H x).
Qed.

Lemma strip_of_trimmed (s : pystr) : trimmed s → strip s = s.
Proof.
  intros [Hhead Hlast]. unfold strip, rstrip.
  rewrite (lstrip_fixed (rev s)).
  - rewrite rev_involutive. by apply lstrip_fixed.
  - intros c Hc. apply Hlast.
    by rewrite <- (rev_involutive s), last_rev_head.
Qed.

Lemma qualifies_nonempty (s : pystr) : qualifies s = true → strip s ≠ [].
Proof.
  intros Hq%qualifies_bounds Hs. rewrite <- word_count_strip, Hs in Hq.
  cbv in Hq. lia.
Qed.

Example strip_twice : strip (strip (py "  a  b ")) = strip (py "  a  b ").
Proof. reflexivity. Qed.

(** *** The session dict, again *)

(** X4: the initialisation loop makes every key present, keeps the value
    of every key that was present, and changes nothing on a session that
    is already initialised; running it twice is running it once. *)
Theorem init_session_settles (s : SessionState) :
  initialized (init_session s)
  ∧ value (audio_data (init_session s)) = value (audio_data s)
  ∧ value (file_name (init_session s)) = value (file_name s)
  ∧ value (transcription (init_session s)) = value (transcription s)
  ∧ value (summary (init_session s)) = value (summary s)
  ∧ value (flashcards (init_session s)) = value (flashcards s)
  ∧ init_session (init_session s) = init_session s
  ∧ (initialized s → init_session s = s).
Proof.
  rewrite !init_session_fields. repeat split.
  - by repeat constructor.
  - intros (a & fn & tr & su & fc & ->)%initialized_fields. reflexivity.
Qed.

Lemma init_session_settles_witness :
  init_session (state (Toy.processed Toy.lecture))
  = state (Toy.processed Toy.lecture).
Proof.
  apply (init_session_settles (state (Toy.processed Toy.lecture))).
  vm_compute. repeat constructor.
Defined.

(** *** Flashcards, again *)

Lemma omap_cards_trimmed (evs : list Event) (sentences : list pystr) :
  Forall2 asks evs sentences →
  Forall (λ s, qualifies s = true) sentences →
  Forall (λ c, trimmed (question c) ∧ trimmed (answer c)
               ∧ answer c ≠ [] ∧ strip (answer c) = answer c)
    (omap card_of_event evs).
Proof.
  induction 1 as [|ev s evs ss [r ->] _ IH]; intros Hq; simpl; [constructor|].
  apply Forall_cons in Hq as [Hs Hq]. destruct r as [q|msg]; simpl; [|auto].
  constructor; [|auto]. simpl.
  split; [apply strip_is_trimmed|]. split; [apply strip_is_trimmed|].
  split; [by apply qualifies_nonempty|apply strip_of_trimmed].
  apply strip_is_trimmed.
Qed.

Lemma omap_cards_count (evs : list Event) (sentences : list pystr) :
  Forall2 asks evs sentences →
  (length (omap card_of_event evs)
   + length (List.filter is_failed_question evs) = length sentences)%nat.
Proof.
  induction 1 as [|ev s evs ss [r ->] _ IH]; [done|].
  destruct r as [q|msg].
  - change (omap card_of_event (CallQG s (Ok q) :: evs))
      with (Flashcard (strip q) (strip s) :: omap card_of_event evs).
    simpl. lia.
  - change (omap card_of_event (CallQG s (Fail msg) :: evs))
      with (omap card_of_event evs).
    simpl. lia.
Qed.

Section MoreFlashcards.
Context {Env : Type} (C : Collaborators Env).

(** X1: whatever the question generator returns, the question and the
    answer of every flashcard come out without whitespace at either end,
    stripping an answer again changes nothing, and no answer is empty.
    (The function returns flashcards unless loading the models or
    tokenizing raised.) *)
Theorem flashcards_are_trimmed (text : pystr) (w : World Env) :
  match flashcards_setup C text (env w) with
  | (Some msg, e) =>
      generate_flashcards C text w = (Raise (PyException msg), with_env e w)
  | (None, _) =>
      ∃ cards w',
        generate_flashcards C text w = (Ret cards, w')
        ∧ Forall (λ c, trimmed (question c) ∧ trimmed (answer c)
                       ∧ answer c ≠ [] ∧ strip (answer c) = answer c) cards
  end.
Proof.
  pose proof (generate_flashcards_cases C text w) as Hrun.
  destruct (flashcards_setup C text (env w)) as [[msg|] e0]; [done|].
  destruct Hrun as (evs & e & Hrun & Hasks).
  eexists _, _. split; [exact Hrun|].
  eapply omap_cards_trimmed; [exact Hasks|apply good_take_qualify].
Qed.

(** X2: the flashcards returned and the question-generation calls that
    failed add up to the candidates: at most ten, and all the qualifying
    sentences when there are fewer.  (The function returns flashcards
    unless loading the models or tokenizing raised.) *)
Theorem flashcards_and_failures_add_up (text : pystr) (w : World Env) :
  match flashcards_setup C text (env w) with
  | (Some msg, e) =>
      generate_flashcards C text w = (Raise (PyException msg), with_env e w)
  | (None, _) =>
      ∃ cards w',
        generate_flashcards C text w = (Ret cards, w')
        ∧ (length cards
           + length (List.filter is_failed_question (new_events w w'))
           = 10 `min` length (good_sentences C text))%nat
  end.
Proof.
  pose proof (generate_flashcards_cases C text w) as Hrun.
  destruct (flashcards_setup C text (env w)) as [[msg|] e0]; [done|].
  destruct Hrun as (evs & e & Hrun & Hasks).
  eexists _, _. split; [exact Hrun|].
  rewrite (new_events_app w _ evs) by done.
  rewrite (omap_cards_count evs _ Hasks). apply length_take.
Qed.

(** X3: when no sentence of the transcript qualifies, the question
    generator is not called at all and the list is empty; nothing in the
    session, the files or the trace changes.  (The function returns
    unless loading the models or tokenizing raised.) *)
Theorem no_candidate_no_call (text : pystr) (w : World Env) :
  Forall (λ s, qualifies s = false) (sent_tokenize C text) →
  match flashcards_setup C text (env w) with
  | (Some msg, e) =>
      generate_flashcards C text w = (Raise (PyException msg), with_env e w)
  | (None, e) => generate_flashcards C text w = (Ret [], with_env e w)
  end.
Proof.
  intros Hnone.
  assert (good_sentences C text = []) as Hgood.
  { unfold good_sentences. induction Hnone as [|s l Hs _ IH]; simpl; [done|].
    by rewrite Hs. }
  pose proof (generate_flashcards_run C text w) as Hrun.
  rewrite Hgood in Hrun.
  destruct (flashcards_setup C text (env w)) as [[msg|] e0]; [done|].
  simpl in Hrun. by rewrite Hrun, app_nil_r.
Qed.
End MoreFlashcards.

Lemma no_candidate_no_call_witness :
  generate_flashcards Toy.collab (py "Short one." ++ [10] ++ py "Short two.")
    Toy.start = (Ret [], Toy.start).
Proof.
  apply (no_candidate_no_call Toy.collab
           (py "Short one." ++ [10] ++ py "Short two.") Toy.start).
  vm_compute. repeat constructor.
Defined.

(** *** What a pass does *)

Lemma value_init_field {A} (x : option (option A)) :
  value (init_field x) = value x.
Proof. by destruct x. Qed.

Lemma init_session_initialized (s : SessionState) :
  initialized (init_session s).
Proof. rewrite init_session_fields. by repeat constructor. Qed.

Lemma init_session_fixed (s : SessionState) :
  initialized s → init_session s = s.
Proof. by intros (a & fn & tr & su & fc & ->)%initialized_fields. Qed.

Lemma pass_change_coherent (s0 s : SessionState) :
  coherent s0 → pass_change s0 s → coherent s.
Proof.
  intros Hc Hch. destruct s0 as [au fn tr su fc].
  destruct Hch as [|name data Ha|audio t Ha Ht|audio text s Ha Ht Hx
                   |audio text s cards Ha Ht Hx];
    unfold coherent, value in *; simpl in *.
  - done.
  - intuition congruence.
  - subst au tr. destruct fc as [[fc|]|], su as [[su|]|]; simpl in *;
      intuition congruence.
  - subst au tr. destruct text as [|c text]; [done|].
    destruct fc as [[fc|]|]; simpl in *; intuition congruence.
  - subst au tr. destruct text as [|c text]; [done|]. simpl.
    intuition congruence.
Qed.

Lemma pass_effect_flashcards_made (s0 s : SessionState) :
  flashcards_made s0 → pass_effect s0 s → flashcards_made s.
Proof.
  intros Hg Heff. destruct s0 as [au fn tr su fc].
  destruct Heff as [|name data Ha|audio t Ha Ht Hf|audio text s cards Ha Ht Hx];
    unfold flashcards_made, value in *; simpl in *.
  - done.
  - done.
  - rewrite Hf. done.
  - done.
Qed.

Lemma pass_change_audio (s0 s : SessionState) (a : bytes) :
  audio_data s0 = Some (Some a) → pass_change s0 s →
  audio_data s = Some (Some a) ∧ file_name s = file_name s0.
Proof.
  intros Ha [|name data Hnone| | |]; try done.
  unfold value in Hnone. by rewrite Ha in Hnone.
Qed.

Section Passes.
Context {Env : Type} (C : Collaborators Env).

(** The input branch, in full: a recording with bytes in it wins over an
    uploaded file, and either ends the pass with a rerun. *)
Lemma input_view_run (ui : Widgets) (w : World Env) :
  input_view C ui w =
  match recorder ui with
  | Some (b :: bs) =>
      let '(d, e) := datetime_now C (env w) in
      (Raise RerunException,
       MkWorld e
         (set_audio_data (Some (b :: bs))
            (set_file_name
               (Some (py "recording_" ++ strftime C d (py "%Y%m%d_%H%M%S")
                      ++ py ".webm"))
               (state w)))
         (files w) (trace w))
  | _ =>
      match uploader ui with
      | Some (name, data) =>
          (Raise RerunException,
           with_state
             (set_audio_data (Some data) (set_file_name (Some name) (state w)))
             w)
      | None => (Ret (), w)
      end
  end.
Proof.
  unfold input_view, when, now_strftime, assign, st_rerun, raise, ret, bind.
  destruct (recorder ui) as [[|b bs]|]; cbn [truthy].
  - by destruct (uploader ui) as [[name data]|].
  - by destruct (datetime_now C (env w)) as [d e].
  - by destruct (uploader ui) as [[name data]|].
Qed.

(** Without audio, a pass is the input branch. *)
Lemma script_input (ui : Widgets) (w : World Env) :
  value (audio_data (state w)) = None →
  script C ui w = input_view C ui (with_state (init_session (state w)) w).
Proof.
  intros Ha. unfold script. rewrite bind_assign.
  unfold bind at 1, attr at 1. cbn [with_state state].
  rewrite init_session_fields. cbn [audio_data].
  by destruct (audio_data (state w)) as [[a|]|].
Qed.

(** With audio and a transcript, a pass is the results branch. *)
Lemma script_results (ui : Widgets) (w : World Env) (a : bytes) (t : pystr) :
  audio_data (state w) = Some (Some a) →
  transcription (state w) = Some (Some t) →
  script C ui w = results_view C ui t (with_audio_offered a w).
Proof.
  intros Ha Ht. unfold script, with_audio_offered. rewrite bind_assign.
  unfold bind at 1, attr at 1. cbn [with_state state].
  rewrite init_session_fields. cbn [audio_data]. rewrite Ha.
  cbn [init_field default from_option id].
  unfold bind at 1, attr at 1. cbn [state file_name init_field].
  unfold bind at 1, st_download_audio at 1.
  unfold bind at 1, attr at 1. cbn [log state transcription].
  by rewrite Ht.
Qed.

Lemma steady_ret {A} (s0 : SessionState) (a : A) : steady s0 (@ret Env A a).
Proof. by intros w Hw. Qed.

Lemma steady_bind {A B} (s0 : SessionState) (m : M Env A) (k : A → M Env B) :
  steady s0 m → (∀ a, steady s0 (k a)) → steady s0 (bind m k).
Proof.
  intros Hm Hk w Hw. unfold bind. destruct (Hm w Hw) as [Hne Hst].
  destruct (m w) as [[a|e] w1]; simpl in *; [by apply Hk|done].
Qed.

Lemma steady_when (s0 : SessionState) (b : bool) (m : M Env unit) :
  steady s0 m → steady s0 (when b m).
Proof. intros Hm. destruct b; [done|apply steady_ret]. Qed.

Lemma steady_attr {A} (s0 : SessionState) (field : SessionState → option A) :
  is_Some (field s0) → steady s0 (@attr Env A field).
Proof. intros [v Hv] w Hw. unfold attr. by rewrite Hw, Hv. Qed.

Lemma steady_now (s0 : SessionState) (format : pystr) :
  steady s0 (now_strftime C format).
Proof.
  intros w Hw. unfold now_strftime. by destruct (datetime_now C (env w)).
Qed.

Lemma steady_download (s0 : SessionState) (label data name : pystr) :
  steady s0 (@st_download_button Env label data name).
Proof. by intros w Hw. Qed.

Lemma steady_export_all (s0 : SessionState) :
  initialized s0 → steady s0 (export_all C).
Proof.
  intros Hinit w Hw. subst s0. pose proof (export_all_run C w Hinit) as Hrun.
  destruct (datetime_now C (env w)) as [d1 e1].
  destruct (datetime_now C e1) as [d2 e2]. by rewrite Hrun.
Qed.

Ltac steadily :=
  repeat match goal with
    | |- steady _ (bind _ _) => apply steady_bind; [|intros ?]
    | |- steady _ (when _ _) => apply steady_when
    | |- steady _ (ret _) => apply steady_ret
    | |- steady _ (attr _) => apply steady_attr; by eexists
    | |- steady _ (now_strftime _ _) => apply steady_now
    | |- steady _ (st_download_button _ _ _) => apply steady_download
    | |- steady _ (export_all _) => apply steady_export_all
    end.

(** The results branch ends without error on an initialised session and
    leaves it as it is. *)
Lemma results_view_steady (s0 : SessionState) (ui : Widgets) (text : pystr) :
  initialized s0 → steady s0 (results_view C ui text).
Proof.
  intros Hinit.
  destruct (initialized_fields s0 Hinit) as (a & fn & tr & su & fc & Hs0).
  unfold results_view. cbv zeta. rewrite Hs0 in *. steadily. done.
Qed.

Lemma processing_pass (audio : bytes) (w0 : World Env) :
  dependable C →
  audio_data (state w0) = Some (Some audio) →
  transcription (state w0) = Some None →
  no_error (processing C audio w0).1
  ∧ pass_effect (state w0) (state (processing C audio w0).2).
Proof.
  intros Hdep Ha Ht.
  destruct (transcribe_inert C audio w0) as (r & w1 & Hr & Hst & _).
  destruct r as [[|c text]|msg]; cbn [reply_value] in Hr.
  - rewrite (processing_falsy C _ _ _ _ Hr eq_refl). split; [done|].
    cbn [snd with_state state]. rewrite Hst.
    by apply (pass_no_transcript _ audio).
  - destruct (processing_truthy C audio w0 w1 (c :: text) Hdep Hr)
      as (r & evs & e & Hp & _); [done|].
    rewrite Hp. split; [done|]. cbn [snd state]. rewrite Hst.
    by apply (pass_processed _ audio).
  - rewrite (processing_falsy C _ _ _ _ Hr eq_refl). split; [done|].
    cbn [snd with_state state]. rewrite Hst.
    by apply (pass_no_transcript _ audio).
Qed.

(** The same for all collaborators: the pass may also stop with an
    error after the transcript, or after the summary, is stored. *)
Lemma processing_change (audio : bytes) (w0 : World Env) :
  audio_data (state w0) = Some (Some audio) →
  transcription (state w0) = Some None →
  pass_change (state w0) (state (processing C audio w0).2).
Proof.
  intros Ha Ht.
  destruct (transcribe_inert C audio w0) as (r & w1 & Hr & Hst & _).
  destruct r as [[|c text]|msg]; cbn [reply_value] in Hr.
  - rewrite (processing_falsy C _ _ _ _ Hr eq_refl).
    cbn [snd with_state state]. rewrite Hst.
    by apply (change_transcript _ audio).
  - pose proof (processing_truthy_run C audio w0 w1 (c :: text) Hr) as Hp.
    cbv zeta in Hp.
    destruct (load_models_fails C (env w1)) as [[msg|] e1].
    { rewrite Hp by done. cbn [snd state]. rewrite Hst.
      by apply (change_transcript _ audio). }
    destruct (summarizer C (c :: text) 150 40 e1) as [r e2].
    destruct (flashcards_setup C (c :: text) e2) as [[msg|] e3].
    { rewrite Hp by done. cbn [snd state]. rewrite Hst.
      by apply (change_summary _ audio). }
    destruct (qg_run C _ e3) as [evs e4]. rewrite Hp by done.
    cbn [snd state]. rewrite Hst. by apply (change_processed _ audio).
  - rewrite (processing_falsy C _ _ _ _ Hr eq_refl).
    cbn [snd with_state state]. rewrite Hst.
    by apply (change_transcript _ audio).
Qed.

Lemma input_pass (ui : Widgets) (w0 : World Env) :
  value (audio_data (state w0)) = None →
  no_error (input_view C ui w0).1
  ∧ pass_effect (state w0) (state (input_view C ui w0).2).
Proof.
  intros Ha. rewrite input_view_run.
  destruct (recorder ui) as [[|b bs]|];
    try (destruct (uploader ui) as [[name data]|]; split; try done;
         cbn [snd with_state state]; by constructor).
  destruct (datetime_now C (env w0)) as [d e]. split; [done|].
  cbn [snd state]. by constructor.
Qed.

Lemma audio_offered_state (a : bytes) (w : World Env) :
  state (with_audio_offered a w) = init_session (state w).
Proof. reflexivity. Qed.

(** A pass, by the branch it takes. *)
Lemma script_branches (ui : Widgets) (w : World Env) :
  (value (audio_data (state w)) = None
   ∧ script C ui w = input_view C ui (with_state (init_session (state w)) w))
  ∨ (∃ a, audio_data (init_session (state w)) = Some (Some a)
          ∧ transcription (init_session (state w)) = Some None
          ∧ script C ui w = processing C a (with_audio_offered a w))
  ∨ (∃ a t, audio_data (state w) = Some (Some a)
            ∧ transcription (state w) = Some (Some t)
            ∧ script C ui w = results_view C ui t (with_audio_offered a w)).
Proof.
  assert (audio_data (init_session (state w))
            = init_field (audio_data (state w))
          ∧ transcription (init_session (state w))
            = init_field (transcription (state w))) as [Ha0 Ht0]
    by (by rewrite init_session_fields).
  rewrite Ha0, Ht0.
  destruct (audio_data (state w)) as [[a|]|] eqn:Ha.
  - destruct (transcription (state w)) as [[t|]|] eqn:Ht.
    + right. right. exists a, t. by rewrite (script_results ui w a t Ha Ht).
    + right. left. exists a.
      by rewrite (script_processing C ui w a Ha (or_intror Ht)).
    + right. left. exists a.
      by rewrite (script_processing C ui w a Ha (or_introl Ht)).
  - left. split; [done|]. apply script_input. unfold value. by rewrite Ha.
  - left. split; [done|]. apply script_input. unfold value. by rewrite Ha.
Qed.

(** When loading the models and tokenizing do not raise, a pass ends
    without error, in one of the four ways of [pass_effect]. *)
Lemma script_pass (ui : Widgets) (w : World Env) :
  dependable C →
  no_error (script C ui w).1
  ∧ pass_effect (init_session (state w)) (state (script C ui w).2).
Proof.
  intros Hdep.
  pose proof (init_session_initialized (state w)) as Hinit.
  destruct (script_branches ui w)
    as [[Ha ->]|[(a & Ha & Ht & ->)|(a & t & Ha & Ht & ->)]].
  - apply (input_pass ui (with_state (init_session (state w)) w)).
    cbn [with_state state]. rewrite init_session_fields.
    cbn [audio_data]. by rewrite value_init_field.
  - rewrite <- (audio_offered_state a w) in *. by apply processing_pass.
  - destruct (results_view_steady _ ui t Hinit (with_audio_offered a w)
                eq_refl) as [Hne Hst].
    split; [done|]. rewrite Hst. constructor.
Qed.

Lemma pass_effect_change (s0 s : SessionState) :
  pass_effect s0 s → pass_change s0 s.
Proof.
  intros [|name data Ha|audio t Ha Ht Hf|audio text su cards Ha Ht Hx].
  - constructor.
  - by constructor.
  - by apply (change_transcript _ audio).
  - by apply (change_processed _ audio).
Qed.

(** For all collaborators, what a pass does to the session is one of the
    ways of [pass_change]. *)
Lemma script_change (ui : Widgets) (w : World Env) :
  pass_change (init_session (state w)) (state (script C ui w).2).
Proof.
  pose proof (init_session_initialized (state w)) as Hinit.
  destruct (script_branches ui w)
    as [[Ha ->]|[(a & Ha & Ht & ->)|(a & t & Ha & Ht & ->)]].
  - apply pass_effect_change.
    apply (input_pass ui (with_state (init_session (state w)) w)).
    cbn [with_state state]. rewrite init_session_fields.
    cbn [audio_data]. by rewrite value_init_field.
  - rewrite <- (audio_offered_state a w) in *. by apply processing_change.
  - destruct (results_view_steady _ ui t Hinit (with_audio_offered a w)
                eq_refl) as [Hne Hst].
    rewrite Hst. constructor.
Qed.
End Passes.

Lemma pass_effect_initialized (s0 s : SessionState) :
  initialized s0 → pass_effect s0 s → initialized s.
Proof.
  intros (a & fn & tr & su & fc & ->)%initialized_fields Heff.
  destruct Heff; by repeat constructor.
Qed.

Section PassProperties.
Context {Env : Type} (C : Collaborators Env).

Lemma steps_cons (i : Interaction) (l : list Interaction) (w : World Env) :
  steps C (i :: l) w = steps C l (step C i w).
Proof. reflexivity. Qed.

(** X5: in a session without audio, a pass with an uploaded file and no
    recording stores the file's own name and its bytes, even if the file
    is empty, and asks for a rerun; it calls no collaborator and shows
    nothing. *)
Theorem upload_acquires_audio (ui : Widgets) (w : World Env)
    (name : pystr) (data : bytes) :
  value (audio_data (state w)) = None →
  truthy (recorder ui) = false →
  uploader ui = Some (name, data) →
  script C ui w =
  (Raise RerunException,
   with_state
     (set_audio_data (Some data)
        (set_file_name (Some name) (init_session (state w))))
     w).
Proof.
  intros Ha Hrec Hup. rewrite (script_input C ui w Ha), input_view_run, Hup.
  by destruct (recorder ui) as [[|b bs]|].
Qed.

(** X6: in a session without audio, a recording with bytes in it is
    taken whatever file was uploaded in the same pass: the audio is the
    recording and the name is [recording_], the time as
    [%Y%m%d_%H%M%S], and [.webm]; the pass asks for a rerun. *)
Theorem recording_takes_precedence (ui : Widgets) (w : World Env)
    (b : Byte.byte) (bs : bytes) :
  value (audio_data (state w)) = None →
  recorder ui = Some (b :: bs) →
  let '(d, e) := datetime_now C (env w) in
  script C ui w =
  (Raise RerunException,
   MkWorld e
     (set_audio_data (Some (b :: bs))
        (set_file_name
           (Some (py "recording_" ++ strftime C d (py "%Y%m%d_%H%M%S")
                  ++ py ".webm"))
           (init_session (state w))))
     (files w) (trace w)).
Proof.
  intros Ha Hrec.
  pose proof (input_view_run C ui (with_state (init_session (state w)) w))
    as Hrun.
  rewrite Hrec in Hrun. cbn [with_state env state files trace] in Hrun.
  destruct (datetime_now C (env w)) as [d e].
  by rewrite (script_input C ui w Ha).
Qed.

(** X7: a recording without bytes counts as no recording: in every
    session state the pass is the one that would run with no recording
    at all. *)
Theorem empty_recording_ignored (ui : Widgets) (w : World Env) :
  script C (Build_Widgets (Some []) (uploader ui) (export_pressed ui)) w
  = script C (Build_Widgets None (uploader ui) (export_pressed ui)) w.
Proof.
  set (ui1 := Build_Widgets (Some []) (uploader ui) (export_pressed ui)).
  set (ui2 := Build_Widgets None (uploader ui) (export_pressed ui)).
  destruct (audio_data (state w)) as [[a|]|] eqn:Ha.
  - destruct (transcription (state w)) as [[t|]|] eqn:Ht.
    + by rewrite (script_results C ui1 w a t Ha Ht),
        (script_results C ui2 w a t Ha Ht).
    + by rewrite (script_processing C ui1 w a Ha (or_intror Ht)),
        (script_processing C ui2 w a Ha (or_intror Ht)).
    + by rewrite (script_processing C ui1 w a Ha (or_introl Ht)),
        (script_processing C ui2 w a Ha (or_introl Ht)).
  - rewrite (script_input C ui1 w), (script_input C ui2 w)
      by (unfold value; by rewrite Ha).
    by rewrite !input_view_run.
  - rewrite (script_input C ui1 w), (script_input C ui2 w)
      by (unfold value; by rewrite Ha).
    by rewrite !input_view_run.
Qed.

(** X8: when loading the models and tokenizing do not raise, then from
    any session state and for any widget input and any replies of the
    other collaborators, a pass of the script ends without an error, by
    returning or by asking for a rerun; afterwards all five keys are
    present, and what the pass did to the session is one of: nothing,
    taking audio in with its name, storing a transcript that is [None]
    or empty, or storing a non-empty transcript with its summary and
    flashcards. *)
Theorem pass_never_fails (ui : Widgets) (w : World Env) :
  dependable C →
  no_error (script C ui w).1
  ∧ initialized (state (script C ui w).2)
  ∧ pass_effect (init_session (state w)) (state (script C ui w).2).
Proof.
  intros Hdep. destruct (script_pass C ui w Hdep) as [Hne Heff].
  split; [done|]. split; [|done].
  eapply pass_effect_initialized; [apply init_session_initialized|done].
Qed.

Lemma step_effect (i : Interaction) (w : World Env) :
  dependable C →
  ∃ s0, pass_effect (init_session s0) (state (step C i w))
        ∧ (s0 = state w ∨ s0 = fresh_session ∧ is_rerun i = false).
Proof.
  intros Hdep. destruct i as [ui|ui]; unfold step.
  - exists (state w). split; [by apply script_pass|by left].
  - exists fresh_session. split; [|by right].
    pose proof (script_pass C ui (with_state (reset_app (state w)) w) Hdep)
      as H.
    cbn [with_state state] in H. rewrite reset_app_fresh in *. apply H.
Qed.

Lemma step_change (i : Interaction) (w : World Env) :
  ∃ s0, pass_change (init_session s0) (state (step C i w))
        ∧ (s0 = state w ∨ s0 = fresh_session ∧ is_rerun i = false).
Proof.
  destruct i as [ui|ui]; unfold step.
  - exists (state w). split; [apply script_change|by left].
  - exists fresh_session. split; [|by right].
    pose proof (script_change C ui (with_state (reset_app (state w)) w)) as H.
    cbn [with_state state] in H. by rewrite reset_app_fresh in *.
Qed.

Lemma coherent_init (s : SessionState) : coherent s → coherent (init_session s).
Proof.
  unfold coherent. rewrite init_session_fields. cbn [audio_data file_name
    transcription summary flashcards]. by rewrite !value_init_field.
Qed.

Lemma flashcards_made_init (s : SessionState) :
  flashcards_made s → flashcards_made (init_session s).
Proof.
  unfold flashcards_made. rewrite init_session_fields. cbn [transcription
    flashcards]. by rewrite !value_init_field.
Qed.

(** X9: for all collaborators, also when a pass ends in an error, the
    fields of the session stay coherent through any sequence of passes
    and resets: audio and file name are there together, a transcript
    only with audio, and flashcards or a summary only with a non-empty
    transcript. *)
Theorem session_stays_coherent (l : list Interaction) (w : World Env) :
  coherent (state w) → coherent (state (steps C l w)).
Proof.
  revert w. induction l as [|i l IH]; intros w Hc; [done|].
  rewrite steps_cons. apply IH.
  destruct (step_change i w) as (s0 & Hch & [-> | [-> _]]).
  - eapply pass_change_coherent; [by apply coherent_init|done].
  - eapply pass_change_coherent; [|done]. by apply coherent_init.
Qed.

(** X14: when loading the models and tokenizing do not raise, a
    non-empty transcript always has its flashcards: the property holds
    after any sequence of passes and resets if it held before. *)
Theorem transcript_has_flashcards (l : list Interaction) (w : World Env) :
  dependable C →
  flashcards_made (state w) → flashcards_made (state (steps C l w)).
Proof.
  intros Hdep. revert w. induction l as [|i l IH]; intros w Hg; [done|].
  rewrite steps_cons. apply IH.
  destruct (step_effect i w Hdep) as (s0 & Heff & [-> | [-> _]]).
  - eapply pass_effect_flashcards_made; [by apply flashcards_made_init|done].
  - eapply pass_effect_flashcards_made; [|done]. by apply flashcards_made_init.
Qed.

(** X10: audio that is held is never replaced: through any sequence of
    passes without a reset, whatever is recorded or uploaded in them, the
    audio and its file name stay what they are. *)
Theorem audio_kept_until_reset (l : list Interaction) (w : World Env)
    (a : bytes) :
  audio_data (state w) = Some (Some a) →
  forallb is_rerun l = true →
  audio_data (state (steps C l w)) = Some (Some a)
  ∧ value (file_name (state (steps C l w))) = value (file_name (state w)).
Proof.
  revert w. induction l as [|i l IH]; intros w Ha Hl; [done|].
  simpl in Hl. apply andb_true_iff in Hl as [Hi Hl]. rewrite steps_cons.
  destruct (step_change i w) as (s0 & Hch & [-> | [_ Hno]]);
    [|congruence].
  eapply pass_change_audio in Hch as [Ha' Hfn];
    [|by rewrite init_session_fields; cbn [audio_data]; rewrite Ha].
  destruct (IH _ Ha' Hl) as [IHa IHfn]. split; [done|].
  rewrite IHfn, Hfn, init_session_fields. apply value_init_field.
Qed.

(** X11: a session with audio and a transcript is stable: no sequence of
    passes without a reset changes any of its five fields, so the
    summary and the flashcards are not computed again either, and all
    such passes do is offer downloads. *)
Theorem ready_session_stable (l : list Interaction) (w : World Env)
    (a : bytes) (t : pystr) :
  initialized (state w) →
  audio_data (state w) = Some (Some a) →
  transcription (state w) = Some (Some t) →
  forallb is_rerun l = true →
  state (steps C l w) = state w
  ∧ Forall (λ ev, is_download ev = true) (new_events w (steps C l w)).
Proof.
  intros Hinit Ha Ht Hl. split.
  - revert w Hinit Ha Ht. induction l as [|i l IH]; intros w Hinit Ha Ht;
      [done|].
    simpl in Hl. apply andb_true_iff in Hl as [Hi Hl]. rewrite steps_cons.
    destruct i as [ui|ui]; [|done]. unfold step.
    assert (state (script C ui w).2 = state w) as Hst.
    { rewrite (script_results C ui w a t Ha Ht).
      apply (results_view_steady C (state w) ui t Hinit).
      by rewrite audio_offered_state, (init_session_fixed _ Hinit). }
    rewrite IH; rewrite ?Hst; done.
  - destruct (steps_keep C l w t Ht Hl) as (_ & evs & Htr & Hd).
    by rewrite (new_events_app w _ evs Htr).
Qed.

(** With audio and no transcript, a pass offers the audio and then calls
    the transcription model. *)
Lemma processing_transcribes (ui : Widgets) (w : World Env) (audio : bytes) :
  audio_data (state w) = Some (Some audio) →
  unset (transcription (state w)) →
  ∃ path r rest,
    new_events w (step C (Rerun ui) w) =
    OfferAudio (0x1F4BE :: py " Download Audio") audio
      (value (file_name (state w)))
    :: CallTranscribe path r :: rest.
Proof.
  intros Ha Hu. unfold step. rewrite (script_processing C ui w audio Ha Hu).
  set (w0 := with_audio_offered audio w).
  pose proof (transcribe_run C audio w0) as Hrun.
  destruct (temp_name C (py ".webm") (env w0)) as [path e1].
  cbv zeta in Hrun.
  destruct (whisper_transcribe C path _ e1) as [r e2].
  destruct (remove_refused C path e2) as [refusal e3].
  assert (trace w0 = trace w ++ [OfferAudio (0x1F4BE :: py " Download Audio")
                                   audio (value (file_name (state w)))])
    as Htr0 by done.
  rewrite Htr0 in Hrun.
  exists path, r. destruct r as [[|c text]|msg]; cbn [reply_value] in Hrun.
  - rewrite (processing_falsy C _ _ _ _ Hrun eq_refl).
    eexists. apply new_events_app. cbn [snd with_state trace].
    by rewrite <- app_assoc.
  - pose proof (processing_truthy_run C audio w0 _ (c :: text) Hrun) as Hp.
    cbv zeta in Hp. cbn [env state files trace] in Hp.
    destruct (load_models_fails C e3) as [[msg|] e4].
    { rewrite Hp by done. eexists. apply new_events_app. cbn [snd trace].
      by rewrite <- app_assoc. }
    destruct (summarizer C (c :: text) 150 40 e4) as [r e5].
    destruct (flashcards_setup C (c :: text) e5) as [[msg|] e6].
    { rewrite Hp by done. eexists. apply new_events_app. cbn [snd trace].
      by rewrite <- !app_assoc. }
    destruct (qg_run C _ e6) as [evs e7]. rewrite Hp by done.
    eexists. apply new_events_app. cbn [snd trace].
    by rewrite <- !app_assoc.
  - rewrite (processing_falsy C _ _ _ _ Hrun eq_refl).
    eexists. apply new_events_app. cbn [snd with_state trace].
    by rewrite <- app_assoc.
Qed.

(** X12: a failed transcription is tried again: after a pass in which
    [transcribe_with_whisper] returned [None], the session still has its
    audio and no transcript, and the next pass, whatever its input,
    offers the audio and then calls the transcription model once more. *)
Theorem failed_transcription_retried (ui ui' : Widgets) (w : World Env)
    (audio : bytes) :
  audio_data (state w) = Some (Some audio) →
  unset (transcription (state w)) →
  (transcribe_with_whisper C audio
     (with_state (init_session (state w)) w)).1 = Ret None →
  let w' := step C (Rerun ui) w in
  audio_data (state w') = Some (Some audio)
  ∧ transcription (state w') = Some None
  ∧ ∃ path r rest,
      new_events w' (step C (Rerun ui') w') =
      OfferAudio (0x1F4BE :: py " Download Audio") audio
        (value (file_name (state w')))
      :: CallTranscribe path r :: rest.
Proof.
  intros Ha Hu Hrun w'.
  destruct (falsy_pass C ui w audio None Ha Hu Hrun eq_refl) as (Ht & _).
  fold w' in Ht.
  assert (audio_data (state w') = Some (Some audio)) as Ha'.
  { pose proof (script_change C ui w) as Hch.
    eapply pass_change_audio in Hch as [Ha' _]; [exact Ha'|].
    rewrite init_session_fields. cbn [audio_data]. by rewrite Ha. }
  split; [done|]. split; [done|].
  apply (processing_transcribes ui' w' audio Ha'). by right.
Qed.

(** X15: when loading the models raises after a non-empty transcript
    was returned, the pass ends with that error: the transcript is
    stored, but no summarizer or question-generation call is made and
    summary and flashcards are left as they were; the passes after it
    show the results and do not make them either. *)
Theorem load_failure_stops_pass (ui : Widgets) (w : World Env)
    (audio : bytes) (text msg : pystr) (e : Env) :
  audio_data (state w) = Some (Some audio) →
  unset (transcription (state w)) →
  (transcribe_with_whisper C audio
     (with_state (init_session (state w)) w)).1 = Ret (Some text) →
  text ≠ [] →
  load_models_fails C
    (env (transcribe_with_whisper C audio
            (with_state (init_session (state w)) w)).2) = (Some msg, e) →
  let w' := step C (Rerun ui) w in
  (script C ui w).1 = Raise (PyException msg)
  ∧ transcription (state w') = Some (Some text)
  ∧ summary (state w') = init_field (summary (state w))
  ∧ flashcards (state w') = init_field (flashcards (state w))
  ∧ Forall (λ ev, is_generation ev = false) (new_events w w')
  ∧ (∀ ui', Forall (λ ev, is_download ev = true)
              (new_events w' (step C (Rerun ui') w'))).
Proof.
  intros Ha Hu Hrun Ht Hload w'. subst w'. unfold step.
  rewrite (script_processing C ui w audio Ha Hu).
  destruct (transcribe_inert C audio (with_audio_offered audio w))
    as (r0 & w1 & Hr & Hst & evs0 & Htr & Hq).
  destruct (transcribe_same C audio (with_state (init_session (state w)) w)
              (with_audio_offered audio w) eq_refl eq_refl) as [Hsame He].
  rewrite Hr, Hrun in Hsame. cbn [fst] in Hsame. injection Hsame as Hsame.
  rewrite Hsame in Hr. rewrite Hr in He. cbn [snd] in He.
  rewrite <- He in Hload.
  pose proof (processing_truthy_run C audio _ w1 text Hr Ht) as Hp.
  cbv zeta in Hp. rewrite Hload in Hp. rewrite Hp. cbn [fst snd state trace].
  rewrite Hst, audio_offered_state, init_session_fields.
  split; [done|]. split; [done|]. split; [done|]. split; [done|]. split.
  - erewrite new_events_app;
      [|rewrite Htr; unfold with_audio_offered; cbn [log with_state trace];
        rewrite <- app_assoc; reflexivity].
    by constructor.
  - intros ui'.
    match goal with
    | |- context [script C ui' ?w2] =>
        destruct (script_keeps C ui' w2 text eq_refl) as (_ & evs & Htr2 & Hd)
    end.
    by rewrite (new_events_app _ _ evs Htr2).
Qed.
End PassProperties.

(** *** What the results view offers *)

Section Downloads.
Context {Env : Type} (C : Collaborators Env).

Lemma bind_assoc {A B D} (m : M Env A) (f : A → M Env B) (k : B → M Env D)
    (w : World Env) :
  bind (bind m f) k w = bind m (λ a, bind (f a) k) w.
Proof. unfold bind. by destruct (m w) as [[a|e] w1]. Qed.

Lemma bind_now {B} (format : pystr) (k : pystr → M Env B) (w : World Env) :
  bind (now_strftime C format) k w =
  let '(d, e) := datetime_now C (env w) in
  k (strftime C d format) (with_env e w).
Proof.
  unfold bind, now_strftime. by destruct (datetime_now C (env w)).
Qed.

Lemma bind_download {B} (label data name : pystr) (k : unit → M Env B)
    (w : World Env) :
  bind (st_download_button label data name) k w =
  k () (log (OfferDownload label data name) w).
Proof. reflexivity. Qed.

Lemma bind_attr {A B} (field : SessionState → option A) (k : A → M Env B)
    (w : World Env) (v : A) :
  field (state w) = Some v → bind (attr field) k w = k v w.
Proof. intros H. unfold bind, attr. by rewrite H. Qed.

Lemma bind_ret {A B} (a : A) (k : A → M Env B) (w : World Env) :
  bind (ret a) k w = k a w.
Proof. reflexivity. Qed.

Ltac settle :=
  cbv [log with_env];
  cbn [env state files trace summary flashcards truthy when default
       from_option id].

Ltac run_step :=
  first
    [ rewrite bind_assoc
    | rewrite bind_download
    | rewrite bind_now; settle; destruct (datetime_now C _) as [? ?]
    | erewrite bind_attr by (settle; reflexivity)
    | rewrite bind_ret ];
  settle.

(** X13: a pass over a session with audio and a transcript offers, in
    this order: the audio, always; the transcript, always; the summary,
    when it is not [None] or empty; the flashcards as text (one
    [Q:]/[A:] pair per card, a blank line between cards) and as JSON,
    when there is a card; and the combined report, when [Export All] was
    pressed.  It offers nothing else. *)
Theorem results_offer_downloads (ui : Widgets) (w : World Env)
    (a : bytes) (t : pystr) :
  initialized (state w) →
  audio_data (state w) = Some (Some a) →
  transcription (state w) = Some (Some t) →
  let su := value (summary (state w)) in
  let fc := value (flashcards (state w)) in
  ∃ stamp,
    omap offered (new_events w (step C (Rerun ui) w)) =
    [(0x1F4BE :: py " Download Audio", Audio a);
     (0x1F4C4 :: py " Download Transcription", Text t)]
    ++ (if truthy su
        then [(0x1F4C4 :: py " Download Summary", Text (default [] su))]
        else [])
    ++ (if truthy fc
        then [(0x1F4C4 :: py " Flashcards (TXT)",
               Text (join [10; 10] (List.map card_text (default [] fc))));
              (0x1F4DA :: py " Flashcards (JSON)",
               Text (json_dumps C (default [] fc)))]
        else [])
    ++ (if export_pressed ui
        then [(0x1F4E5 :: py " Download Report",
               Text (report_text (state w) stamp))]
        else []).
Proof.
  intros Hinit Ha Ht su fc. unfold step.
  rewrite (script_results C ui w a t Ha Ht).
  unfold with_audio_offered. rewrite (init_session_fixed _ Hinit).
  destruct w as [e s f tr]. cbn [state with_state env files trace] in *.
  unfold with_state, log. cbn [state with_state env files trace].
  destruct (initialized_fields s Hinit) as (a' & fn & t' & su' & fc' & Hs).
  subst s. cbn [summary flashcards file_name value default from_option id]
    in su, fc |- *.
  subst su fc. unfold results_view. cbv zeta.
  assert (∀ (w1 : World Env) evs,
            state w1 = Session (Some a') (Some fn) (Some t') (Some su') (Some fc') →
            trace w1 = tr ++ evs →
            ∃ stamp,
              omap offered
                (new_events (MkWorld e (state w1) f tr)
                   (when (export_pressed ui)
                      (bind (export_all C) (λ _, ret ())) w1).2) =
              omap offered evs
              ++ (if export_pressed ui
                  then [(0x1F4E5 :: py " Download Report",
                         Text (report_text (state w1) stamp))]
                  else [])) as Hexport.
  { intros w1 evs Hst Htr. destruct (export_pressed ui); cbn [when].
    - assert (initialized (state w1)) as Hi1
        by (rewrite Hst; by repeat constructor).
      pose proof (export_all_run C w1 Hi1) as Hrun.
      destruct (datetime_now C (env w1)) as [d1 e1].
      destruct (datetime_now C e1) as [d2 e2].
      rewrite (bind_run _ _ _ _ _ Hrun). cbn [ret snd].
      eexists. erewrite new_events_app;
        [|cbn [trace]; rewrite Htr, <- app_assoc; reflexivity].
      by rewrite omap_app.
    - exists []. cbn [ret snd]. erewrite new_events_app; [|cbn [trace]; done].
      by rewrite app_nil_r. }
  destruct su' as [[|c su']|]; destruct fc' as [[|card cards]|];
    repeat run_step;
    match goal with
    | |- context [when _ _ ?w1] =>
        edestruct (Hexport w1) as [stamp Hg];
          [reflexivity | settle; rewrite <- ?app_assoc; reflexivity |]
    end;
    exists stamp; cbn [state] in Hg; rewrite Hg; reflexivity.
Qed.
End Downloads.

(** *** The properties above on concrete sessions *)

Lemma upload_acquires_audio_witness :
  script Toy.collab (Toy.upload "empty.wav" []) Toy.start =
  (Raise RerunException,
   with_state
     (set_audio_data (Some [])
        (set_file_name (Some (py "empty.wav")) (init_session fresh_session)))
     Toy.start).
Proof.
  apply (upload_acquires_audio Toy.collab (Toy.upload "empty.wav" [])
           Toy.start (py "empty.wav") []); reflexivity.
Defined.

Lemma recording_takes_precedence_witness :
  let w' :=
    (script Toy.collab
       (Toy.record_and_upload [Byte.x41] [Byte.x42]) Toy.start).2 in
  audio_data (state w') = Some (Some [Byte.x41])
  ∧ file_name (state w') = Some (Some (py "recording_20261103_185407.webm")).
Proof.
  pose proof (recording_takes_precedence Toy.collab
                (Toy.record_and_upload [Byte.x41] [Byte.x42]) Toy.start
                Byte.x41 [] eq_refl eq_refl) as H.
  change (datetime_now Toy.collab (env Toy.start))
    with (Datetime 2026 11 3 18 54 7, 0%nat) in H.
  cbv beta iota zeta in H. cbv zeta. rewrite H.
  split; vm_compute; reflexivity.
Defined.

Lemma session_stays_coherent_witness :
  coherent
    (state
       (steps Toy.collab
          [Rerun (Toy.upload "a.wav" (Toy.audio_of Toy.lecture));
           Rerun Toy.no_input; Rerun Toy.press_export;
           StartOver Toy.no_input; Rerun (Toy.upload "b.wav" Toy.garbled);
           Rerun Toy.no_input]
          Toy.start)).
Proof.
  apply session_stays_coherent.
  unfold coherent, value. simpl. repeat split; done.
Defined.

Lemma audio_kept_until_reset_witness :
  audio_data
    (state
       (steps Toy.collab
          [Rerun (Toy.upload "other.mp3" [Byte.x41]); Rerun Toy.no_input]
          (Toy.acquired (Toy.audio_of Toy.terse))))
  = Some (Some (Toy.audio_of Toy.terse)).
Proof.
  refine (proj1 (audio_kept_until_reset Toy.collab _ _ _ _ _));
    reflexivity.
Defined.

Lemma ready_session_stable_witness :
  state
    (steps Toy.collab
       [Rerun (Toy.upload "other.mp3" [Byte.x41]); Rerun Toy.press_export]
       (Toy.processed Toy.lecture))
  = state (Toy.processed Toy.lecture).
Proof.
  refine (proj1 (ready_session_stable Toy.collab _ (Toy.processed Toy.lecture)
                   (Toy.audio_of Toy.lecture) (py Toy.lecture) _ _ _ _)).
  - vm_compute. repeat constructor.
  - vm_compute. reflexivity.
  - vm_compute. reflexivity.
  - reflexivity.
Defined.

Lemma failed_transcription_retried_witness :
  let w' := step Toy.collab (Rerun Toy.no_input) (Toy.acquired Toy.garbled) in
  ∃ path r rest,
    new_events w' (step Toy.collab (Rerun Toy.no_input) w')
    = OfferAudio (0x1F4BE :: py " Download Audio") Toy.garbled
        (value (file_name (state w')))
      :: CallTranscribe path r :: rest.
Proof.
  intros w'.
  apply (failed_transcription_retried Toy.collab Toy.no_input Toy.no_input
           (Toy.acquired Toy.garbled) Toy.garbled).
  - reflexivity.
  - right. reflexivity.
  - vm_compute. reflexivity.
Defined.

Lemma results_offer_downloads_witness :
  ∃ report,
    fst <$> omap offered
      (new_events (Toy.processed Toy.lecture)
         (step Toy.collab (Rerun Toy.press_export)
            (Toy.processed Toy.lecture)))
    = [0x1F4BE :: py " Download Audio";
       0x1F4C4 :: py " Download Transcription";
       0x1F4C4 :: py " Download Summary";
       0x1F4C4 :: py " Flashcards (TXT)";
       0x1F4DA :: py " Flashcards (JSON)";
       0x1F4E5 :: py " Download Report"]
    ∧ last (omap offered
              (new_events (Toy.processed Toy.lecture)
                 (step Toy.collab (Rerun Toy.press_export)
                    (Toy.processed Toy.lecture))))
      = Some (0x1F4E5 :: py " Download Report", Text report).
Proof.
  destruct (results_offer_downloads Toy.collab Toy.press_export
              (Toy.processed Toy.lecture) (Toy.audio_of Toy.lecture)
              (py Toy.lecture)) as [stamp H].
  - vm_compute. repeat constructor.
  - vm_compute. reflexivity.
  - vm_compute. reflexivity.
  - eexists. rewrite H. split; vm_compute; reflexivity.
Defined.

Lemma pass_never_fails_witness :
  no_error
    (script Toy.collab Toy.no_input
       (Toy.acquired (Toy.audio_of Toy.lecture))).1.
Proof.
  refine (proj1 (pass_never_fails Toy.collab Toy.no_input
                   (Toy.acquired (Toy.audio_of Toy.lecture)) _)).
  split; intros; reflexivity.
Defined.

Lemma transcript_has_flashcards_witness :
  flashcards_made
    (state
       (steps Toy.collab
          [Rerun (Toy.upload "a.wav" (Toy.audio_of Toy.terse));
           Rerun Toy.no_input; Rerun Toy.press_export;
           StartOver Toy.no_input]
          Toy.start)).
Proof.
  apply transcript_has_flashcards.
  - split; intros; reflexivity.
  - unfold flashcards_made, value. simpl. discriminate.
Defined.

Lemma load_failure_stops_pass_witness :
  let w := step Toy.offline (Rerun (Toy.upload "a.wav"
                                      (Toy.audio_of Toy.lecture)))
             Toy.start in
  let w' := step Toy.offline (Rerun Toy.no_input) w in
  transcription (state w') = Some (Some (py Toy.lecture))
  ∧ summary (state w') = Some None
  ∧ flashcards (state w') = Some None.
Proof.
  intros w w'.
  destruct (load_failure_stops_pass Toy.offline Toy.no_input w
              (Toy.audio_of Toy.lecture) (py Toy.lecture)
              (py "cannot load model") 0%nat)
    as (_ & Ht & Hs & Hf & _).
  - reflexivity.
  - right. reflexivity.
  - vm_compute. reflexivity.
  - discriminate.
  - reflexivity.
  - fold w' in Ht, Hs, Hf. split; [exact Ht|].
    split; [rewrite Hs|rewrite Hf]; reflexivity.
Defined.
